(** * 3D model viewer: time-of-day lighting and annotation interaction

    A shallow embedding of the logic of [src/App.tsx] and
    [src/components/ModelViewer.tsx]:

    - the lighting computation ([isNight], [getSunParams], the ambient and
      sky parameters and the night-mode point lights);
    - the annotation store and the pointer handlers that place, edit,
      delete and drag annotations, with the sidebar inputs that call them;
    - the components around the canvas, each for one mounted instance: the
      context-loss listener, the fallback and HDRI scenes, and the loader
      of uploaded models.

    JavaScript numbers are idealised as real numbers ([R]): the arithmetic
    of the source is read with exact [+], [-], [*], [/], [Math.sin] as
    [sin], [Math.cos] as [cos] and [Math.PI] as [PI].  [Math.PI] is in
    fact the binary64 number just below pi, which shows where the code
    takes the sine at a multiple of [Math.PI]; for that [getSunParams] is
    also given over an explicit [Math] library ([getSunParams_with]).
    React state is modelled by explicit state passing: every handler is a
    function from the state it closes over to the state after its setters
    have run. *)

From Stdlib Require Import Reals Machin Lra Lia Bool List Ascii String.
Import ListNotations.

Local Open Scope string_scope.
Local Open Scope R_scope.

(** ** Numbers and comparisons *)

(** The JavaScript comparison operators on numbers, as booleans. *)
Definition Rltb (x y : R) : bool := if Rlt_dec x y then true else false.
Definition Rgtb (x y : R) : bool := Rltb y x.
Definition Rgeb (x y : R) : bool := if Rge_dec x y then true else false.

Infix "<?" := Rltb (at level 70, no associativity) : R_scope.
Infix ">?" := Rgtb (at level 70, no associativity) : R_scope.
Infix ">=?" := Rgeb (at level 70, no associativity) : R_scope.

(** A point of the scene: [[number, number, number]]. *)
Definition Point3 : Type := R * R * R.

(** ** Lighting ([App.tsx], [ModelViewer.tsx]) *)

(** [App.tsx]: [const isNight = timeOfDay >= 20 || timeOfDay < 6]. *)
Definition isNight (timeOfDay : R) : bool :=
  (timeOfDay >=? 20) || (timeOfDay <? 6).

(** The object returned by [getSunParams]. *)
Record SunParams : Type := mkSunParams {
  sun_position : Point3;
  sun_color : string;
  sun_intensity : R
}.

Definition warm_color : string := "#ffb347".
Definition neutral_color : string := "#fffbe6".

(** [ModelViewer.tsx], [getSunParams]. *)
Definition getSunParams (timeOfDay : R) : SunParams :=
  let t := (timeOfDay - 6) / 12 in
  let angle := PI * t in
  let sunY := Rmax (sin angle) 0.05 * 10 in
  let sunX := cos angle * 10 in
  let color := if (t <? 0.2) || (t >? 0.8) then warm_color else neutral_color in
  let intensity := if (t <? 0) || (t >? 1) then 0 else Rmax (sin angle) 0 in
  {| sun_position := (sunX, sunY, 7.5);
     sun_color := color;
     sun_intensity := intensity |}.

(** A [<pointLight position intensity color distance />] element. *)
Record PointLight : Type := mkPointLight {
  pl_position : Point3;
  pl_intensity : R;
  pl_color : string;
  pl_distance : R
}.

(** The three lights of the night-mode fragment, in document order. *)
Definition nightLights : list PointLight :=
  [ mkPointLight (0, 2, 0) 0.7 "#aaf" 8;
    mkPointLight (2, 2, 2) 0.5 "#fff" 6;
    mkPointLight (-2, 2, -2) 0.5 "#fff" 6 ].

(** [{isNight && nightLightsEnabled && (<> ... </>)}]. *)
Definition artificialLights (isNight nightLightsEnabled : bool)
  : list PointLight :=
  if isNight && nightLightsEnabled then nightLights else [].

(** What [ModelViewer] hands to the scene for lighting: the directional
    sun light, the ambient light, the sky parameters and the point lights. *)
Record SceneLights : Type := mkSceneLights {
  sunParams : SunParams;
  ambientIntensity : R;
  ambientColor : string;
  elevation : R;
  azimuth : R;
  pointLights : list PointLight
}.

(** The lighting part of the body of [ModelViewer], a function of its
    props [timeOfDay], [nightLightsEnabled] and [isNight]. *)
Definition ModelViewer_lights
  (timeOfDay : R) (nightLightsEnabled isNight : bool) : SceneLights :=
  {| sunParams := getSunParams timeOfDay;
     ambientIntensity := if isNight then 0.15 else 0.4;
     ambientColor := if isNight then "#222233" else "#ffffff";
     elevation :=
       if isNight then 2
       else 10 + Rmax 0 (sin (PI * (timeOfDay - 6) / 12)) * 80;
     azimuth := ((timeOfDay - 6) / 12) * 180;
     pointLights := artificialLights isNight nightLightsEnabled |}.

(** [App] computes [isNight] from its [timeOfDay] state and passes
    [timeOfDay], [nightLightsEnabled] and [isNight] down to [ModelViewer]. *)
Definition App_lights (timeOfDay : R) (nightLightsEnabled : bool)
  : SceneLights :=
  ModelViewer_lights timeOfDay nightLightsEnabled (isNight timeOfDay).

(** The props of the [<Sky />] element of [ModelViewer]. *)
Record SkyProps : Type := mkSkyProps {
  sky_distance : R;
  sky_sunPosition : Point3;
  sky_inclination : R;
  sky_azimuth : R;
  sky_turbidity : R;
  sky_rayleigh : R;
  sky_mieCoefficient : R;
  sky_mieDirectionalG : R;
  sky_exposure : R
}.

(** The [<Sky />] element as [ModelViewer] renders it: the sun position is
    rebuilt component by component from [sunParams.position], the
    inclination and azimuth are the elevation and azimuth angles scaled by
    90 and 360. *)
Definition ModelViewer_sky
  (timeOfDay : R) (nightLightsEnabled isNight : bool) : SkyProps :=
  let l := ModelViewer_lights timeOfDay nightLightsEnabled isNight in
  {| sky_distance := 450000;
     sky_sunPosition :=
       (fst (fst (sun_position (sunParams l))),
        snd (fst (sun_position (sunParams l))),
        snd (sun_position (sunParams l)));
     sky_inclination := elevation l / 90;
     sky_azimuth := azimuth l / 360;
     sky_turbidity := if isNight then 1 else 8;
     sky_rayleigh := if isNight then 0.1 else 2;
     sky_mieCoefficient := 0.005;
     sky_mieDirectionalG := 0.8;
     sky_exposure := if isNight then 0.2 else 0.7 |}.

Definition App_sky (timeOfDay : R) (nightLightsEnabled : bool) : SkyProps :=
  ModelViewer_sky timeOfDay nightLightsEnabled (isNight timeOfDay).

(** ** The sun over an explicit [Math] library *)

Section MathLibrary.

(** What the JavaScript engine provides as [Math.PI], [Math.sin] and
    [Math.cos]. *)
Variable Math_PI : R.
Variables Math_sin Math_cos : R -> R.

(** [ModelViewer.tsx], [getSunParams], reading [Math.PI], [Math.sin] and
    [Math.cos] from the library at hand. *)
Definition getSunParams_with (timeOfDay : R) : SunParams :=
  let t := (timeOfDay - 6) / 12 in
  let angle := Math_PI * t in
  let sunY := Rmax (Math_sin angle) 0.05 * 10 in
  let sunX := Math_cos angle * 10 in
  let color := if (t <? 0.2) || (t >? 0.8) then warm_color else neutral_color in
  let intensity := if (t <? 0) || (t >? 1) then 0 else Rmax (Math_sin angle) 0 in
  {| sun_position := (sunX, sunY, 7.5);
     sun_color := color;
     sun_intensity := intensity |}.

End MathLibrary.

(** The value of [Math.PI]: the binary64 number nearest to pi,
    0x1.921fb54442d18p+1, that is 884279719003555 / 2^48
    = 3.141592653589793115997963... *)
Definition Math_PI_double : R := 884279719003555 / 281474976710656.

(** ** Annotations and interaction state *)

(** [type Annotation = { id; position; title; description }]. *)
Record Annotation : Type := mkAnnotation {
  id : string;
  position : Point3;
  title : string;
  description : string
}.

(** The React state the handlers read and write: [annotations] and
    [showAnnotations] live in [App]; [placing], [draggingId] and
    [dragOverPoint] live in [ModelViewer]. *)
Record State : Type := mkState {
  annotations : list Annotation;
  showAnnotations : bool;
  placing : bool;
  draggingId : option string;
  dragOverPoint : option Point3
}.

(** The state after the initial render: the [useState] defaults. *)
Definition initialState : State :=
  {| annotations := [];
     showAnnotations := true;
     placing := false;
     draggingId := None;
     dragOverPoint := None |}.

(** The state setters.  [setAnnotations] is always called with an updater
    function; the other setters are called with a value. *)
Definition setAnnotations
  (f : list Annotation -> list Annotation) (s : State) : State :=
  {| annotations := f (annotations s);
     showAnnotations := showAnnotations s;
     placing := placing s;
     draggingId := draggingId s;
     dragOverPoint := dragOverPoint s |}.

Definition setShowAnnotations (b : bool) (s : State) : State :=
  {| annotations := annotations s;
     showAnnotations := b;
     placing := placing s;
     draggingId := draggingId s;
     dragOverPoint := dragOverPoint s |}.

Definition setPlacing (b : bool) (s : State) : State :=
  {| annotations := annotations s;
     showAnnotations := showAnnotations s;
     placing := b;
     draggingId := draggingId s;
     dragOverPoint := dragOverPoint s |}.

Definition setDraggingId (d : option string) (s : State) : State :=
  {| annotations := annotations s;
     showAnnotations := showAnnotations s;
     placing := placing s;
     draggingId := d;
     dragOverPoint := dragOverPoint s |}.

Definition setDragOverPoint (p : option Point3) (s : State) : State :=
  {| annotations := annotations s;
     showAnnotations := showAnnotations s;
     placing := placing s;
     draggingId := draggingId s;
     dragOverPoint := p |}.

(** [draggingId === id] for [draggingId : string | null] and a string [id]. *)
Definition draggingId_is (d : option string) (id0 : string) : bool :=
  match d with
  | Some x => String.eqb x id0
  | None => false
  end.

(** Truthiness of [draggingId]: [null] and the empty string are falsy. *)
Definition truthy_id (d : option string) : bool :=
  match d with
  | Some x => negb (String.eqb x "")
  | None => false
  end.

(** [App.tsx], [handleEditAnnotation]:
    [a.map(ann => ann.id === id ? { ...ann, title, description } : ann)]. *)
Definition handleEditAnnotation
  (id0 title0 description0 : string) (s : State) : State :=
  setAnnotations
    (fun a =>
       map (fun ann =>
              if String.eqb (id ann) id0
              then {| id := id ann;
                      position := position ann;
                      title := title0;
                      description := description0 |}
              else ann) a) s.

(** [App.tsx], [handleDeleteAnnotation]: [a.filter(ann => ann.id !== id)]. *)
Definition handleDeleteAnnotation (id0 : string) (s : State) : State :=
  setAnnotations
    (fun a => filter (fun ann => negb (String.eqb (id ann) id0)) a) s.

(** [ModelViewer.tsx], [startPlacing]. *)
Definition startPlacing (s : State) : State := setPlacing true s.

(** [ModelViewer.tsx], [handleSceneClick].  [point] is [e.point]; [uuid] is
    the string returned by the call of [uuidv4()]. *)
Definition handleSceneClick (point : Point3) (uuid : string) (s : State)
  : State :=
  if negb (placing s) then s
  else
    let s1 :=
      setAnnotations
        (fun prev =>
           (prev ++ [ {| id := uuid;
                         position := point;
                         title := "New Annotation";
                         description := "" |} ])%list) s in
    setPlacing false s1.

(** [ModelViewer.tsx], [handleMarkerPointerDown]. *)
Definition handleMarkerPointerDown (id0 : string) (s : State) : State :=
  setDragOverPoint None (setDraggingId (Some id0) s).

(** [ModelViewer.tsx], [handleMarkerPointerUp]. *)
Definition handleMarkerPointerUp (id0 : string) (s : State) : State :=
  let s1 :=
    match draggingId_is (draggingId s) id0, dragOverPoint s with
    | true, Some p =>
        setAnnotations
          (fun prev =>
             map (fun ann =>
                    if String.eqb (id ann) id0
                    then {| id := id ann;
                            position := p;
                            title := title ann;
                            description := description ann |}
                    else ann) prev) s
    | _, _ => s
    end in
  setDragOverPoint None (setDraggingId None s1).

(** [ModelViewer.tsx], [handleMarkerPointerMove]. *)
Definition handleMarkerPointerMove (id0 : string) (point : Point3) (s : State)
  : State :=
  if draggingId_is (draggingId s) id0
  then setDragOverPoint (Some point) s
  else s.

(** [ModelViewer.tsx], [handleScenePointerMove]. *)
Definition handleScenePointerMove (point : Point3) (s : State) : State :=
  if truthy_id (draggingId s)
  then setDragOverPoint (Some point) s
  else s.

(** The position a marker is rendered at:
    [draggingId === ann.id && dragOverPoint ? dragOverPoint : ann.position]. *)
Definition markerPosition (s : State) (ann : Annotation) : Point3 :=
  match draggingId_is (draggingId s) (id ann), dragOverPoint s with
  | true, Some p => p
  | _, _ => position ann
  end.

(** ** The interaction session as a transition system *)

(** The user inputs that reach a handler. *)
Inductive Event : Type :=
| EvStartPlacing
| EvSceneClick (point : Point3) (uuid : string)
| EvScenePointerMove (point : Point3)
| EvMarkerPointerDown (id0 : string)
| EvMarkerPointerUp (id0 : string)
| EvMarkerPointerMove (id0 : string) (point : Point3)
| EvEdit (id0 title0 description0 : string)
| EvDelete (id0 : string)
| EvToggleShow.

Definition step (s : State) (e : Event) : State :=
  match e with
  | EvStartPlacing => startPlacing s
  | EvSceneClick p u => handleSceneClick p u s
  | EvScenePointerMove p => handleScenePointerMove p s
  | EvMarkerPointerDown i => handleMarkerPointerDown i s
  | EvMarkerPointerUp i => handleMarkerPointerUp i s
  | EvMarkerPointerMove i p => handleMarkerPointerMove i p s
  | EvEdit i t d => handleEditAnnotation i t d s
  | EvDelete i => handleDeleteAnnotation i s
  | EvToggleShow => setShowAnnotations (negb (showAnnotations s)) s
  end.

Definition ids (s : State) : list string := map id (annotations s).

(** Which inputs the rendered page offers in a state: the place button is
    disabled while [placing]; a marker exists for each annotation, and only
    while annotations are shown; the sidebar has an edit form and a delete
    button per annotation. *)
Definition enabled (s : State) (e : Event) : Prop :=
  match e with
  | EvStartPlacing => placing s = false
  | EvSceneClick _ _ => True
  | EvScenePointerMove _ => True
  | EvMarkerPointerDown i
  | EvMarkerPointerUp i
  | EvMarkerPointerMove i _ => showAnnotations s = true /\ In i (ids s)
  | EvEdit i _ _ => In i (ids s)
  | EvDelete i => In i (ids s)
  | EvToggleShow => True
  end.

Definition run (s : State) (es : list Event) : State := fold_left step es s.

Inductive reachable : State -> Prop :=
| reachable_init : reachable initialState
| reachable_step s e :
    reachable s -> enabled s e -> reachable (step s e).

(** Every event of a run is offered in the state it is taken in. *)
Fixpoint enabled_all (s : State) (es : list Event) : Prop :=
  match es with
  | [] => True
  | e :: es' => enabled s e /\ enabled_all (step s e) es'
  end.

(** ** The sidebar ([Sidebar.tsx]) *)

(** The [onChange] of the title input in the list entry of [ann]:
    [onEdit(ann.id, e.target.value, ann.description)]. *)
Definition Sidebar_onTitleChange (ann : Annotation) (value : string)
  : State -> State :=
  handleEditAnnotation (id ann) value (description ann).

(** The [onChange] of the description box in the list entry of [ann]:
    [onEdit(ann.id, ann.title, e.target.value)]. *)
Definition Sidebar_onDescriptionChange (ann : Annotation) (value : string)
  : State -> State :=
  handleEditAnnotation (id ann) (title ann) value.

(** ** Measures on runs *)

(** The identifier [uuidv4()] returns at each scene click of the run is not
    in use in the state the click is handled in. *)
Fixpoint fresh_uuids (s : State) (es : list Event) : Prop :=
  match es with
  | [] => True
  | e :: es' =>
      match e with
      | EvSceneClick _ u => ~ In u (ids s)
      | _ => True
      end /\ fresh_uuids (step s e) es'
  end.

(** How many times the place button was pressed in a run. *)
Fixpoint armings (es : list Event) : nat :=
  match es with
  | [] => 0%nat
  | EvStartPlacing :: es' => S (armings es')
  | _ :: es' => armings es'
  end.

(** ** Sample sessions *)

(** [one_marker]: place one annotation ["a"] at (1,2,3). *)
Definition one_marker : State :=
  run initialState [EvStartPlacing; EvSceneClick (1, 2, 3) "a"].

(** Pointer down on marker ["a"], no pointer move yet. *)
Definition drag_started : State :=
  run one_marker [EvMarkerPointerDown "a"].

(** Pointer down on marker ["a"], then a pointer move over the scene. *)
Definition drag_moved : State :=
  run drag_started [EvScenePointerMove (4, 5, 6)].

(** Two annotations ["a"] and ["b"], marker ["a"] mid-drag. *)
Definition two_markers_dragging_a : State :=
  run initialState
    [EvStartPlacing; EvSceneClick (1, 2, 3) "a";
     EvStartPlacing; EvSceneClick (7, 8, 9) "b";
     EvMarkerPointerDown "a"; EvScenePointerMove (4, 5, 6)].

(** ** WebGL context loss ([useWebGLContextLossHandler]) *)

(** The two refs of the hook. *)
Record LossRefs : Type := mkLossRefs {
  contextLostRef : bool;
  reloadAttemptsRef : nat
}.

(** What the listener does to the outside world, in order. *)
Inductive LossEffect : Type :=
| ConsoleLog (msg : string)
| ConsoleLogAttempt (n : nat)      (* [`Reload attempt ${n}/2`] *)
| PreventDefault
| SetTimeoutReload (ms : nat).     (* [setTimeout(() => reload(), ms)] *)

Definition initialLossRefs : LossRefs :=
  {| contextLostRef := false; reloadAttemptsRef := 0 |}.

(** [handleContextLost], the [webglcontextlost] listener. *)
Definition handleContextLost (r : LossRefs) : LossRefs * list LossEffect :=
  let r1 := {| contextLostRef := true;
               reloadAttemptsRef := reloadAttemptsRef r |} in
  if Nat.ltb (reloadAttemptsRef r1) 2 then
    let r2 := {| contextLostRef := contextLostRef r1;
                 reloadAttemptsRef := S (reloadAttemptsRef r1) |} in
    (r2, [ ConsoleLog "WebGL Context Lost - Attempting recovery...";
           PreventDefault;
           ConsoleLogAttempt (reloadAttemptsRef r2);
           SetTimeoutReload 1000 ])
  else
    (r1, [ ConsoleLog "WebGL Context Lost - Attempting recovery...";
           PreventDefault;
           ConsoleLog "Too many reload attempts, stopping..." ]).

(** [n] context-loss events in a row on one mounted canvas: the refs after
    them and everything the listener did. *)
Fixpoint contextLosses (n : nat) (r : LossRefs) : LossRefs * list LossEffect :=
  match n with
  | O => (r, [])
  | S n' =>
      let '(r1, out1) := handleContextLost r in
      let '(r2, out2) := contextLosses n' r1 in
      (r2, (out1 ++ out2)%list)
  end.

Definition is_reload (e : LossEffect) : bool :=
  match e with SetTimeoutReload _ => true | _ => false end.

Definition is_preventDefault (e : LossEffect) : bool :=
  match e with PreventDefault => true | _ => false end.

(** ** The fallback scene and the HDRI scene *)

(** The lights, background and placeholder box a scene component renders. *)
Inductive Mapping : Type :=
| LoaderMapping
| EquirectangularReflectionMapping.

Record Texture : Type := mkTexture {
  texture_id : nat;
  mapping : Mapping
}.

Inductive Background : Type :=
| BackgroundColor (c : string)
| BackgroundTexture (t : Texture).

Record SceneContent : Type := mkSceneContent {
  scene_background : option Background;
  scene_environment : option Texture;
  scene_ambient : R;
  scene_directional_position : Point3;
  scene_directional_intensity : R;
  scene_box_position : Point3;
  scene_box_color : string
}.

(** [SimpleScene]. *)
Definition SimpleScene : SceneContent :=
  {| scene_background := Some (BackgroundColor "#222");
     scene_environment := None;
     scene_ambient := 0.6;
     scene_directional_position := (5, 10, 7.5);
     scene_directional_intensity := 0.8;
     scene_box_position := (0, 1, 0);
     scene_box_color := "orange" |}.

(** The state of [SafeHdriScene]: its two [useState] flags, the texture
    ref, and whether the 5 s timer is still pending. *)
Record HdriState : Type := mkHdriState {
  hdriLoaded : bool;
  hdriError : bool;
  hdriRef : option Texture;
  timeoutPending : bool
}.

(** After mount: the effect has started the timer and the loader. *)
Definition initialHdriState : HdriState :=
  {| hdriLoaded := false;
     hdriError := false;
     hdriRef := None;
     timeoutPending := true |}.

Inductive HdriEvent : Type :=
| HdriTimeout                    (* the timer fires *)
| HdriOnLoad (texture : Texture) (* the loader's success callback *)
| HdriOnError.                   (* the loader's error callback *)

(** The three callbacks of the effect of [SafeHdriScene]. *)
Definition hdri_step (s : HdriState) (e : HdriEvent) : HdriState :=
  match e with
  | HdriTimeout =>
      {| hdriLoaded := hdriLoaded s;
         hdriError := true;
         hdriRef := hdriRef s;
         timeoutPending := false |}
  | HdriOnLoad texture =>
      {| hdriLoaded := true;
         hdriError := hdriError s;
         hdriRef := Some {| texture_id := texture_id texture;
                            mapping := EquirectangularReflectionMapping |};
         timeoutPending := false |}
  | HdriOnError =>
      {| hdriLoaded := hdriLoaded s;
         hdriError := true;
         hdriRef := hdriRef s;
         timeoutPending := false |}
  end.

Definition hdri_run (s : HdriState) (es : list HdriEvent) : HdriState :=
  fold_left hdri_step es s.

(** What [SafeHdriScene] returns. *)
Definition SafeHdriScene (s : HdriState) : SceneContent :=
  if hdriError s then SimpleScene
  else if negb (hdriLoaded s) then
    {| scene_background := Some (BackgroundColor "#222");
       scene_environment := None;
       scene_ambient := 0.6;
       scene_directional_position := (5, 10, 7.5);
       scene_directional_intensity := 0.8;
       scene_box_position := (0, 1, 0);
       scene_box_color := "orange" |}
  else
    {| scene_background := option_map BackgroundTexture (hdriRef s);
       scene_environment := hdriRef s;
       scene_ambient := 0.5;
       scene_directional_position := (5, 10, 7.5);
       scene_directional_intensity := 1;
       scene_box_position := (0, 1, 0);
       scene_box_color := "orange" |}.

(** Whenever [hdriLoaded] is set the ref holds a texture with the mapping
    the success callback assigns. *)
Definition hdri_texture_ok (s : HdriState) : Prop :=
  hdriLoaded s = true ->
  exists t, hdriRef s = Some t /\ mapping t = EquirectangularReflectionMapping.

(** [{useHdri ? <SafeHdriScene /> : <SimpleScene />}]. *)
Definition ModelViewer_scene (useHdri : bool) (h : HdriState) : SceneContent :=
  if useHdri then SafeHdriScene h else SimpleScene.

(** All directional lights inside the canvas, as (position, intensity):
    the time-based sun light of [ModelViewer] and the light of the scene
    component rendered after it. *)
Definition canvas_directionalLights
  (timeOfDay : R) (useHdri : bool) (h : HdriState) : list (Point3 * R) :=
  [ (sun_position (getSunParams timeOfDay),
     sun_intensity (getSunParams timeOfDay));
    (scene_directional_position (ModelViewer_scene useHdri h),
     scene_directional_intensity (ModelViewer_scene useHdri h)) ].

(** All ambient light intensities inside the canvas. *)
Definition canvas_ambientLights
  (isNight useHdri : bool) (h : HdriState) : list R :=
  [ if isNight then 0.15 else 0.4;
    scene_ambient (ModelViewer_scene useHdri h) ].

(** ** Uploaded models ([LoadedModel]) *)

(** [String.prototype.toLowerCase], on file names written in ASCII: the
    letters A..Z (codes 65..90) move to a..z, all else is kept. *)
Definition toLowerCase_char (c : ascii) : ascii :=
  let n := nat_of_ascii c in
  if Nat.leb 65 n && Nat.leb n 90 then ascii_of_nat (n + 32) else c.

Fixpoint toLowerCase (s : string) : string :=
  match s with
  | EmptyString => EmptyString
  | String c s' => String (toLowerCase_char c) (toLowerCase s')
  end.

(** [String.prototype.endsWith]: [suffix] is a tail of [s]. *)
Fixpoint endsWith (s suffix : string) : bool :=
  if String.eqb s suffix then true
  else match s with
       | EmptyString => false
       | String _ s' => endsWith s' suffix
       end.

Inductive LoaderKind : Type := OBJLoader | FBXLoader.

(** The branch [loadModel] takes on [file.name]; [None] is the
    unsupported-type branch. *)
Definition loaderFor (name : string) : option LoaderKind :=
  if endsWith (toLowerCase name) ".obj" then Some OBJLoader
  else if endsWith (toLowerCase name) ".fbx" then Some FBXLoader
  else None.

(** A loaded [THREE.Object3D], by handle. *)
Inductive Object3D : Type := mkObject3D (handle : nat).

(** One run of the effect: the loader it started, if any, and its
    [disposed] variable, which the callbacks of that run close over. *)
Record EffectRun : Type := mkEffectRun {
  run_loader : option LoaderKind;
  run_disposed : bool
}.

(** The state of [LoadedModel]: [object], [error], and the effect runs so
    far, oldest first. *)
Record LoadedModelState : Type := mkLoadedModelState {
  lm_object : option Object3D;
  lm_error : option string;
  lm_effects : list EffectRun
}.

Definition initialLoadedModel : LoadedModelState :=
  {| lm_object := None; lm_error := None; lm_effects := [] |}.

(** The cleanup of the latest effect run sets its [disposed] to true. *)
Fixpoint dispose_last (l : list EffectRun) : list EffectRun :=
  match l with
  | [] => []
  | r :: l' =>
      match l' with
      | [] => [ {| run_loader := run_loader r; run_disposed := true |} ]
      | _ :: _ => r :: dispose_last l'
      end
  end.

Inductive LoadedModelEvent : Type :=
| LmFile (name : string) (thrown : option string)
    (* mount with a file, or a new [file] prop; [thrown] is the message of
       an exception raised inside the [try], if one is *)
| LmOnLoad (k : nat) (obj : Object3D)
    (* success callback of the loader started by run [k] *)
| LmOnError (k : nat) (message : string).
    (* error callback of the loader started by run [k] *)

Definition LoadedModel_step (s : LoadedModelState) (e : LoadedModelEvent)
  : LoadedModelState :=
  match e with
  | LmFile name thrown =>
      (* cleanup of the previous run: [disposed = true; setObject(null)] *)
      let effects := dispose_last (lm_effects s) in
      (* the new run: [loadModel()] *)
      let error :=
        match loaderFor name with
        | Some _ =>
            match thrown with
            | Some message => Some ("Error loading model: " ++ message)
            | None => lm_error s
            end
        | None => Some "Unsupported file type"
        end in
      {| lm_object := None;
         lm_error := error;
         lm_effects :=
           (effects ++ [ {| run_loader := loaderFor name;
                            run_disposed := false |} ])%list |}
  | LmOnLoad k obj =>
      match nth_error (lm_effects s) k with
      | Some {| run_loader := Some _; run_disposed := false |} =>
          {| lm_object := Some obj;
             lm_error := lm_error s;
             lm_effects := lm_effects s |}
      | _ => s
      end
  | LmOnError k message =>
      match nth_error (lm_effects s) k with
      | Some {| run_loader := Some OBJLoader; run_disposed := false |} =>
          {| lm_object := lm_object s;
             lm_error := Some ("Failed to load OBJ: " ++ message);
             lm_effects := lm_effects s |}
      | Some {| run_loader := Some FBXLoader; run_disposed := false |} =>
          {| lm_object := lm_object s;
             lm_error := Some ("Failed to load FBX: " ++ message);
             lm_effects := lm_effects s |}
      | _ => s
      end
  end.

Definition LoadedModel_run (s : LoadedModelState) (es : list LoadedModelEvent)
  : LoadedModelState :=
  fold_left LoadedModel_step es s.

(** What [LoadedModel] returns: the red box, nothing, or the object. *)
Inductive LoadedModelView : Type :=
| RedBox
| Nothing
| Primitive (obj : Object3D).

(** Truthiness of [error : string | null]. *)
Definition truthy_string (e : option string) : bool :=
  match e with
  | Some x => negb (String.eqb x "")
  | None => false
  end.

Definition LoadedModel_render (s : LoadedModelState) : LoadedModelView :=
  if truthy_string (lm_error s) then RedBox
  else match lm_object s with
       | None => Nothing
       | Some obj => Primitive obj
       end.

(** All effect runs but the latest have been cleaned up. *)
Fixpoint older_disposed (l : list EffectRun) : Prop :=
  match l with
  | [] => True
  | r :: l' =>
      match l' with
      | [] => True
      | _ :: _ => run_disposed r = true /\ older_disposed l'
      end
  end.



(** ** Lemmas on the comparisons *)

Lemma Rltb_true (x y : R) : (x <? y) = true <-> x < y.
Proof. unfold Rltb. destruct (Rlt_dec x y); split; intros; try easy. Qed.

Lemma Rltb_false (x y : R) : (x <? y) = false <-> y <= x.
Proof.
  unfold Rltb. destruct (Rlt_dec x y); split; intros; try easy; lra.
Qed.

Lemma Rgtb_true (x y : R) : (x >? y) = true <-> x > y.
Proof. unfold Rgtb. rewrite Rltb_true. lra. Qed.

Lemma Rgtb_false (x y : R) : (x >? y) = false <-> x <= y.
Proof. unfold Rgtb. rewrite Rltb_false. lra. Qed.

Lemma Rgeb_true (x y : R) : (x >=? y) = true <-> x >= y.
Proof. unfold Rgeb. destruct (Rge_dec x y); split; intros; try easy. Qed.

Lemma Rgeb_false (x y : R) : (x >=? y) = false <-> x < y.
Proof.
  unfold Rgeb. destruct (Rge_dec x y); split; intros; try easy; lra.
Qed.

(** Decide one boolean comparison between real constants. *)
Ltac cmp_true := first [ apply Rltb_true | apply Rgtb_true | apply Rgeb_true ]; lra.
Ltac cmp_false := first [ apply Rltb_false | apply Rgtb_false | apply Rgeb_false ]; lra.

(** ** The night flag *)

Lemma isNight_true_iff (timeOfDay : R) :
  isNight timeOfDay = true <-> timeOfDay >= 20 \/ timeOfDay < 6.
Proof.
  unfold isNight. rewrite orb_true_iff, Rgeb_true, Rltb_true. reflexivity.
Qed.

Lemma isNight_false_iff (timeOfDay : R) :
  isNight timeOfDay = false <-> 6 <= timeOfDay < 20.
Proof.
  unfold isNight. rewrite orb_false_iff, Rgeb_false, Rltb_false. lra.
Qed.

(** C6. [isNight timeOfDay] is true exactly when [timeOfDay >= 20] or
    [timeOfDay < 6] and false otherwise; at the boundaries it is true at 20
    and at 5.999, false at 19.999 and at 6. *)
Theorem isNight_spec :
  (forall timeOfDay : R,
      (isNight timeOfDay = true <-> timeOfDay >= 20 \/ timeOfDay < 6) /\
      (isNight timeOfDay = false <-> ~ (timeOfDay >= 20 \/ timeOfDay < 6))) /\
  isNight 20 = true /\
  isNight 19.999 = false /\
  isNight 6 = false /\
  isNight 5.999 = true.
Proof.
  split.
  - intros timeOfDay. split.
    + apply isNight_true_iff.
    + rewrite isNight_false_iff. lra.
  - repeat split.
    + apply isNight_true_iff. lra.
    + apply isNight_false_iff. lra.
    + apply isNight_false_iff. lra.
    + apply isNight_true_iff. lra.
Qed.

(** ** The sun *)

Lemma sun_intensity_eq (timeOfDay : R) :
  sun_intensity (getSunParams timeOfDay) =
  if ((timeOfDay - 6) / 12 <? 0) || ((timeOfDay - 6) / 12 >? 1)
  then 0 else Rmax (sin (PI * ((timeOfDay - 6) / 12))) 0.
Proof. reflexivity. Qed.

Lemma sun_color_eq (timeOfDay : R) :
  sun_color (getSunParams timeOfDay) =
  if ((timeOfDay - 6) / 12 <? 0.2) || ((timeOfDay - 6) / 12 >? 0.8)
  then warm_color else neutral_color.
Proof. reflexivity. Qed.

(** Strictly outside the arc the guard [t < 0 || t > 1] alone gives 0; the
    value of [sin] plays no part there. *)
Lemma sun_intensity_guard (timeOfDay : R) :
  timeOfDay < 6 \/ 18 < timeOfDay ->
  sun_intensity (getSunParams timeOfDay) = 0.
Proof.
  intros H. rewrite sun_intensity_eq.
  replace (((timeOfDay - 6) / 12 <? 0) || ((timeOfDay - 6) / 12 >? 1))
    with true; [reflexivity|].
  symmetry. apply orb_true_iff.
  destruct H; [left | right]; cmp_true.
Qed.

(** [getSunParams] is [getSunParams_with] at the exact constant and
    functions. *)
Lemma getSunParams_with_exact (timeOfDay : R) :
  getSunParams_with PI sin cos timeOfDay = getSunParams timeOfDay.
Proof. reflexivity. Qed.

Lemma sun_intensity_with_eq
  (Math_PI : R) (Math_sin Math_cos : R -> R) (timeOfDay : R) :
  sun_intensity (getSunParams_with Math_PI Math_sin Math_cos timeOfDay) =
  if ((timeOfDay - 6) / 12 <? 0) || ((timeOfDay - 6) / 12 >? 1)
  then 0 else Rmax (Math_sin (Math_PI * ((timeOfDay - 6) / 12))) 0.
Proof. reflexivity. Qed.

(** At 18:00 the guard [t < 0 || t > 1] is false: the intensity is the
    clamped sine of [Math.PI] itself. *)
Lemma sun_intensity_with_18 (Math_PI : R) (Math_sin Math_cos : R -> R) :
  sun_intensity (getSunParams_with Math_PI Math_sin Math_cos 18) =
  Rmax (Math_sin Math_PI) 0.
Proof.
  rewrite sun_intensity_with_eq.
  replace ((18 - 6) / 12) with 1 by lra.
  replace (1 <? 0) with false by (symmetry; cmp_false).
  replace (1 >? 1) with false by (symmetry; cmp_false).
  cbn [orb]. rewrite Rmult_1_r. reflexivity.
Qed.

(** [Math.PI] is positive and below pi, by sixteen terms of the series of
    [2 * atan (1/3) + atan (1/7)]; it is within 2e-16 of pi, by seventeen. *)
Lemma Math_PI_double_below_PI :
  0 < Math_PI_double < PI /\ PI - Math_PI_double < 2 / 10 ^ 16.
Proof.
  pose proof (PI_2_3_7_ineq 7) as [Hlo _].
  pose proof (PI_2_3_7_ineq 8) as [_ Hhi].
  unfold Math_PI_double.
  cbv [sum_f_R0 tg_alt PI_2_3_7_tg Ratan_seq Nat.mul Nat.add pow INR]
    in Hlo, Hhi.
  cbv [pow]. repeat split; lra.
Qed.

Lemma sin_Math_PI_double :
  0 < sin Math_PI_double < 2 / 10 ^ 16.
Proof.
  destruct Math_PI_double_below_PI as [[Hpos Hlt] Hnear].
  split.
  - apply sin_gt_0; assumption.
  - rewrite <- sin_PI_x.
    apply Rlt_trans with (PI - Math_PI_double); [|exact Hnear].
    apply sin_lt_x. lra.
Qed.

(** With [Math.PI] the double it is, the sun intensity at 18:00, a time in
    [[18, 20)], is the sine of [Math.PI]: positive (below 2e-16), not 0. *)
Lemma sun_intensity_at_18_not_zero :
  18 <= 18 < 20 /\
  sun_intensity (getSunParams_with Math_PI_double sin cos 18) =
    sin Math_PI_double /\
  0 < sun_intensity (getSunParams_with Math_PI_double sin cos 18)
    < 2 / 10 ^ 16 /\
  sun_intensity (getSunParams_with Math_PI_double sin cos 18) <> 0.
Proof.
  pose proof sin_Math_PI_double as [Hpos Hsmall].
  assert (Hval : sun_intensity (getSunParams_with Math_PI_double sin cos 18)
                 = sin Math_PI_double).
  { rewrite sun_intensity_with_18. apply Rmax_left. lra. }
  rewrite Hval. repeat split; try lra.
Qed.

(** C5, as implemented.  For every [timeOfDay] with [18 < timeOfDay < 20]
    or [0 <= timeOfDay < 6] the sun intensity is exactly 0, whatever
    [Math.PI], [Math.sin] and [Math.cos] are: the guard [t < 0 || t > 1]
    decides.  [isNight] is false on all of [[18, 20)], so the two
    boundaries are independent.  At exactly 18 the guard is false and the
    intensity is [max(Math.sin(Math.PI), 0)]. *)
Theorem sun_intensity_zero_off_arc
  (Math_PI : R) (Math_sin Math_cos : R -> R) (timeOfDay : R) :
  (18 < timeOfDay < 20 \/ 0 <= timeOfDay < 6 ->
   sun_intensity (getSunParams_with Math_PI Math_sin Math_cos timeOfDay) = 0)
  /\
  (18 <= timeOfDay < 20 -> isNight timeOfDay = false) /\
  sun_intensity (getSunParams_with Math_PI Math_sin Math_cos 18) =
    Rmax (Math_sin Math_PI) 0.
Proof.
  split; [|split].
  - intros H. rewrite sun_intensity_with_eq.
    replace (((timeOfDay - 6) / 12 <? 0) || ((timeOfDay - 6) / 12 >? 1))
      with true; [reflexivity|].
    symmetry. apply orb_true_iff.
    destruct H; [right | left]; cmp_true.
  - intros H. apply isNight_false_iff. lra.
  - apply sun_intensity_with_18.
Qed.

(** The instance at 19:00: the sun is off and it is not yet night. *)
Lemma sun_intensity_zero_off_arc_19 :
  sun_intensity (getSunParams_with Math_PI_double sin cos 19) = 0 /\
  sun_intensity (getSunParams 19) = 0 /\
  isNight 19 = false.
Proof.
  destruct (sun_intensity_zero_off_arc Math_PI_double sin cos 19)
    as (Hi & Hn & _).
  destruct (sun_intensity_zero_off_arc PI sin cos 19) as (Hi' & _ & _).
  split; [apply Hi; left; lra|].
  split; [apply Hi'; left; lra | apply Hn; lra].
Defined.

(** C7. The sun colour is the warm tone exactly when [t < 0.2] or
    [t > 0.8] for [t = (timeOfDay - 6) / 12], that is when
    [timeOfDay < 8.4] or [timeOfDay > 15.6], and the neutral tone
    otherwise; it is warm at 6 and at 18 and neutral at 12. *)
Theorem sun_color_buckets :
  (forall timeOfDay : R,
      let t := (timeOfDay - 6) / 12 in
      (sun_color (getSunParams timeOfDay) = warm_color <->
       t < 0.2 \/ t > 0.8) /\
      (t < 0.2 \/ t > 0.8 <-> timeOfDay < 8.4 \/ timeOfDay > 15.6) /\
      (sun_color (getSunParams timeOfDay) = neutral_color <->
       ~ (timeOfDay < 8.4 \/ timeOfDay > 15.6))) /\
  sun_color (getSunParams 6) = warm_color /\
  sun_color (getSunParams 12) = neutral_color /\
  sun_color (getSunParams 18) = warm_color.
Proof.
  assert (Hne : warm_color <> neutral_color) by discriminate.
  assert (Hall : forall timeOfDay : R,
             (sun_color (getSunParams timeOfDay) = warm_color <->
              timeOfDay < 8.4 \/ timeOfDay > 15.6) /\
             (sun_color (getSunParams timeOfDay) = neutral_color <->
              ~ (timeOfDay < 8.4 \/ timeOfDay > 15.6))).
  { intros timeOfDay. rewrite sun_color_eq.
    destruct (((timeOfDay - 6) / 12 <? 0.2) || ((timeOfDay - 6) / 12 >? 0.8))
      eqn:E.
    - apply orb_true_iff in E. rewrite Rltb_true, Rgtb_true in E.
      split; split; intros; try congruence; try lra;
        try (exfalso; apply Hne; assumption).
    - apply orb_false_iff in E. rewrite Rltb_false, Rgtb_false in E.
      split; split; intros; try congruence; try lra;
        try (exfalso; apply Hne; symmetry; assumption). }
  split.
  - intros timeOfDay t.
    assert (Ht : t < 0.2 \/ t > 0.8 <-> timeOfDay < 8.4 \/ timeOfDay > 15.6)
      by (unfold t; lra).
    destruct (Hall timeOfDay) as [Hw Hn].
    split; [| split]; [rewrite Ht; exact Hw | exact Ht | exact Hn].
  - repeat split.
    + apply Hall. lra.
    + apply Hall. lra.
    + apply Hall. lra.
Qed.

(** ** Night-mode point lights *)

Lemma artificialLights_nil_iff (night enabled : bool) :
  artificialLights night enabled = [] <-> night && enabled = false.
Proof.
  unfold artificialLights, nightLights.
  destruct (night && enabled); split; intros H; try reflexivity;
    discriminate H.
Qed.

(** C8. The point lights handed to the scene are present exactly when
    [isNight timeOfDay && nightLightsEnabled]; when present they are
    exactly three, the overhead blue one first and then the two flanking
    ones; with [nightLightsEnabled] off there is none, and the sun and
    ambient parameters are the same as with it on. *)
Theorem artificial_lights_spec (timeOfDay : R) (nightLightsEnabled : bool) :
  let on := App_lights timeOfDay nightLightsEnabled in
  let off := App_lights timeOfDay false in
  (pointLights on <> [] <-> isNight timeOfDay && nightLightsEnabled = true) /\
  (pointLights on = [] <-> isNight timeOfDay && nightLightsEnabled = false) /\
  (pointLights on <> [] ->
   List.length (pointLights on) = 3%nat /\
   pointLights on =
     [ mkPointLight (0, 2, 0) 0.7 "#aaf" 8;
       mkPointLight (2, 2, 2) 0.5 "#fff" 6;
       mkPointLight (-2, 2, -2) 0.5 "#fff" 6 ]) /\
  List.length (pointLights off) = 0%nat /\
  sunParams off = sunParams on /\
  ambientIntensity off = ambientIntensity on /\
  ambientColor off = ambientColor on.
Proof.
  cbn zeta. unfold App_lights, ModelViewer_lights, artificialLights.
  cbn [pointLights sunParams ambientIntensity ambientColor].
  rewrite andb_false_r.
  destruct (isNight timeOfDay && nightLightsEnabled).
  - repeat split; try reflexivity; discriminate.
  - repeat split; try reflexivity; try discriminate;
      try (intros Hnil; exfalso; apply Hnil; reflexivity);
      match goal with
      | Hnil : [] <> [] |- _ => exfalso; apply Hnil; reflexivity
      end.
Qed.

(** The end-to-end scenario at 21:00. *)
Lemma artificial_lights_at_21 :
  isNight 21 = true /\
  List.length (pointLights (App_lights 21 true)) = 3%nat /\
  List.length (pointLights (App_lights 21 false)) = 0%nat /\
  sunParams (App_lights 21 false) = sunParams (App_lights 21 true) /\
  ambientIntensity (App_lights 21 false) = 0.15 /\
  ambientIntensity (App_lights 21 true) = 0.15.
Proof.
  assert (H : isNight 21 = true) by (apply isNight_true_iff; lra).
  unfold App_lights, ModelViewer_lights, artificialLights.
  cbn [pointLights sunParams ambientIntensity]. rewrite H.
  repeat split.
Qed.

(** ** Frame lemmas for the handlers *)

Lemma map_id_edit (f : Annotation -> Annotation) (l : list Annotation) :
  (forall ann, id (f ann) = id ann) -> map id (map f l) = map id l.
Proof.
  intros Hf. rewrite map_map. apply map_ext. exact Hf.
Qed.

Lemma map_unchanged (f : Annotation -> Annotation) (l : list Annotation) :
  (forall ann, In ann l -> f ann = ann) -> map f l = l.
Proof.
  intros Hf. induction l as [|a l IH]; cbn; [reflexivity|].
  rewrite Hf by (left; reflexivity).
  rewrite IH; [reflexivity|]. intros ann Hin. apply Hf. right. exact Hin.
Qed.

(** ** Runs of the transition system *)

Lemma reachable_run (es : list Event) :
  forall s, reachable s -> enabled_all s es -> reachable (run s es).
Proof.
  induction es as [|e es IH]; intros s Hs Hen; cbn in *.
  - exact Hs.
  - destruct Hen as [He Hes]. apply IH; [|exact Hes].
    apply reachable_step; assumption.
Qed.

(** Discharges [reachable (run initialState es)] for a concrete [es]. *)
Ltac reach :=
  apply reachable_run;
  [ apply reachable_init
  | cbv; repeat split; auto ].

Lemma reachable_one_marker : reachable one_marker.
Proof. unfold one_marker. reach. Qed.

Lemma reachable_drag_started : reachable drag_started.
Proof.
  unfold drag_started. apply reachable_run; [apply reachable_one_marker|].
  cbv. repeat split; auto.
Qed.

Lemma reachable_drag_moved : reachable drag_moved.
Proof.
  unfold drag_moved. apply reachable_run; [apply reachable_drag_started|].
  cbv. repeat split; auto.
Qed.

Lemma reachable_two_markers_dragging_a : reachable two_markers_dragging_a.
Proof. unfold two_markers_dragging_a. reach. Qed.

Example one_marker_eq :
  one_marker =
  {| annotations := [mkAnnotation "a" (1, 2, 3) "New Annotation" ""];
     showAnnotations := true;
     placing := false;
     draggingId := None;
     dragOverPoint := None |}.
Proof. reflexivity. Qed.

(** While the drag is open the marker is drawn at the preview point; the
    stored position is still the committed one. *)
Example drag_moved_marker :
  map (markerPosition drag_moved) (annotations drag_moved) = [(4, 5, 6)] /\
  map position (annotations drag_moved) = [(1, 2, 3)].
Proof. split; reflexivity. Qed.

Example drag_moved_eq :
  drag_moved =
  {| annotations := [mkAnnotation "a" (1, 2, 3) "New Annotation" ""];
     showAnnotations := true;
     placing := false;
     draggingId := Some "a";
     dragOverPoint := Some (4, 5, 6) |}.
Proof. reflexivity. Qed.

(** ** Placing an annotation *)






(** ** Editing *)

(** C10. [handleEditAnnotation id title description] keeps the length
    and the order of the list, leaves every annotation with another
    identifier as it is, and gives each annotation with that identifier
    the new title and description while keeping its identifier and
    position; when no annotation has the identifier the list is unchanged.
    Nothing else of the state changes. *)
Theorem handleEditAnnotation_spec
  (id0 title0 description0 : string) (s : State) :
  let s' := handleEditAnnotation id0 title0 description0 s in
  List.length (annotations s') = List.length (annotations s) /\
  map id (annotations s') = map id (annotations s) /\
  map position (annotations s') = map position (annotations s) /\
  (forall n ann, nth_error (annotations s) n = Some ann ->
     id ann <> id0 -> nth_error (annotations s') n = Some ann) /\
  (forall n ann, nth_error (annotations s) n = Some ann ->
     id ann = id0 ->
     nth_error (annotations s') n =
       Some (mkAnnotation (id ann) (position ann) title0 description0)) /\
  (~ In id0 (ids s) -> s' = s) /\
  showAnnotations s' = showAnnotations s /\
  placing s' = placing s /\
  draggingId s' = draggingId s /\
  dragOverPoint s' = dragOverPoint s.
Proof.
  cbn zeta. unfold handleEditAnnotation, setAnnotations. cbn.
  repeat split.
  - apply length_map.
  - apply map_id_edit. intros ann. destruct (String.eqb _ _); reflexivity.
  - rewrite map_map. apply map_ext. intros ann.
    destruct (String.eqb _ _); reflexivity.
  - intros n ann Hn Hne. rewrite nth_error_map, Hn. cbn.
    apply String.eqb_neq in Hne. rewrite Hne. reflexivity.
  - intros n ann Hn He. rewrite nth_error_map, Hn. cbn.
    apply String.eqb_eq in He. rewrite He. reflexivity.
  - intros Hnot. destruct s as [l sh pl dr dp]. cbn in *. f_equal.
    apply map_unchanged. intros ann Hin.
    destruct (String.eqb (id ann) id0) eqn:E; [|reflexivity].
    exfalso. apply Hnot. apply String.eqb_eq in E. subst id0.
    unfold ids. cbn. apply in_map. exact Hin.
Qed.

(** ** Dragging *)

(** C9. When a marker is mid-drag and no pointer move has set
    [dragOverPoint], pointer-up on that marker leaves the whole annotation
    list, hence every committed position, unchanged and clears [draggingId]
    and [dragOverPoint]. *)
Theorem handleMarkerPointerUp_without_move (id0 : string) (s : State) :
  draggingId s = Some id0 ->
  dragOverPoint s = None ->
  let s' := handleMarkerPointerUp id0 s in
  annotations s' = annotations s /\
  map position (annotations s') = map position (annotations s) /\
  draggingId s' = None /\
  dragOverPoint s' = None /\
  placing s' = placing s.
Proof.
  intros _ Hp. cbn zeta. unfold handleMarkerPointerUp. rewrite Hp.
  destruct (draggingId_is (draggingId s) id0); cbn; repeat split.
Qed.

Lemma handleMarkerPointerUp_without_move_witness :
  annotations (handleMarkerPointerUp "a" drag_started) =
    [mkAnnotation "a" (1, 2, 3) "New Annotation" ""] /\
  draggingId (handleMarkerPointerUp "a" drag_started) = None /\
  dragOverPoint (handleMarkerPointerUp "a" drag_started) = None.
Proof.
  destruct (handleMarkerPointerUp_without_move "a" drag_started
              eq_refl eq_refl) as (Ha & _ & Hd & Hp & _).
  split; [exact Ha | split; [exact Hd | exact Hp]].
Defined.

(** With a pointer move in between, the same pointer-up commits. *)
Example handleMarkerPointerUp_after_move :
  annotations (handleMarkerPointerUp "a" drag_moved) =
    [mkAnnotation "a" (4, 5, 6) "New Annotation" ""].
Proof. reflexivity. Qed.

(** Pointer-down on a marker has no guard on a drag in progress: in a
    reachable state with marker ["a"] mid-drag, pointer-down on the
    existing marker ["b"] replaces the drag target and drops the preview
    point. *)
Lemma handleMarkerPointerDown_switches_target :
  reachable two_markers_dragging_a /\
  draggingId two_markers_dragging_a = Some "a" /\
  In "b" (ids two_markers_dragging_a) /\
  draggingId (handleMarkerPointerDown "b" two_markers_dragging_a) = Some "b" /\
  draggingId (handleMarkerPointerDown "b" two_markers_dragging_a) <> Some "a" /\
  handleMarkerPointerDown "b" two_markers_dragging_a <> two_markers_dragging_a.
Proof.
  split; [apply reachable_two_markers_dragging_a|].
  split; [reflexivity|].
  split; [cbv; auto|].
  split; [reflexivity|].
  split; [discriminate|].
  intros H. apply (f_equal draggingId) in H. discriminate H.
Qed.

(** C1, as implemented. In a state where marker A is mid-drag, pointer-down on
    marker B makes B the drag target: [draggingId] becomes B and
    [dragOverPoint] becomes null; the annotation list and [placing] are
    unchanged.  [draggingId] stays A only when B is A. *)
Theorem handleMarkerPointerDown_retargets (a b : string) (s : State) :
  draggingId s = Some a ->
  let s' := handleMarkerPointerDown b s in
  draggingId s' = Some b /\
  dragOverPoint s' = None /\
  annotations s' = annotations s /\
  showAnnotations s' = showAnnotations s /\
  placing s' = placing s /\
  (draggingId s' = Some a <-> b = a).
Proof.
  intros Ha. cbn. repeat split.
  - intros H. injection H. trivial.
  - intros ->. reflexivity.
Qed.

Lemma handleMarkerPointerDown_retargets_witness :
  draggingId (handleMarkerPointerDown "b" two_markers_dragging_a) = Some "b" /\
  dragOverPoint (handleMarkerPointerDown "b" two_markers_dragging_a) = None /\
  annotations (handleMarkerPointerDown "b" two_markers_dragging_a) =
    annotations two_markers_dragging_a.
Proof.
  destruct (handleMarkerPointerDown_retargets "a" "b" two_markers_dragging_a
              eq_refl) as (Hd & Hp & Ha & _).
  split; [exact Hd | split; [exact Hp | exact Ha]].
Defined.

(** ** Deleting *)

(** Deleting the annotation that is mid-drag removes it from the list and
    leaves [draggingId] and [dragOverPoint] as they were: [draggingId] then
    names an annotation that is no longer in the list. *)
Lemma handleDeleteAnnotation_keeps_drag_state :
  reachable drag_moved /\
  In "a" (ids drag_moved) /\
  draggingId drag_moved = Some "a" /\
  annotations (handleDeleteAnnotation "a" drag_moved) = [] /\
  ~ In "a" (ids (handleDeleteAnnotation "a" drag_moved)) /\
  draggingId (handleDeleteAnnotation "a" drag_moved) = Some "a" /\
  dragOverPoint (handleDeleteAnnotation "a" drag_moved) = Some (4, 5, 6) /\
  draggingId (handleDeleteAnnotation "a" drag_moved) <> None.
Proof.
  split; [apply reachable_drag_moved|].
  split; [cbv; auto|].
  repeat split; try reflexivity.
  - intros [].
  - discriminate.
Qed.

Lemma filter_drops_one {A : Type} (f : A -> bool) (x : A) (l : list A) :
  In x l -> f x = false ->
  (List.length (filter f l) < List.length l)%nat.
Proof.
  induction l as [|a l IH]; intros Hin Hx; [destruct Hin|].
  cbn. destruct Hin as [-> | Hin].
  - rewrite Hx. pose proof (filter_length_le f l). lia.
  - specialize (IH Hin Hx). destruct (f a); cbn; lia.
Qed.

Lemma ids_delete (id0 : string) (s : State) :
  ids (handleDeleteAnnotation id0 s) =
  filter (fun i => negb (String.eqb i id0)) (ids s).
Proof.
  unfold ids, handleDeleteAnnotation, setAnnotations. cbn.
  induction (annotations s) as [|a l IH]; cbn; [reflexivity|].
  destruct (String.eqb (id a) id0); cbn; rewrite IH; reflexivity.
Qed.

(** C2, as implemented. For an identifier in the list, [handleDeleteAnnotation]
    removes every annotation with that identifier and keeps the others, in
    order; [draggingId], [dragOverPoint] and [placing] are left as they
    were, also when the deleted annotation is the one mid-drag. *)
Theorem handleDeleteAnnotation_spec (id0 : string) (s : State) :
  In id0 (ids s) ->
  let s' := handleDeleteAnnotation id0 s in
  ~ In id0 (ids s') /\
  (forall ann, In ann (annotations s') <->
               In ann (annotations s) /\ id ann <> id0) /\
  annotations s' =
    filter (fun ann => negb (String.eqb (id ann) id0)) (annotations s) /\
  (List.length (annotations s') < List.length (annotations s))%nat /\
  draggingId s' = draggingId s /\
  dragOverPoint s' = dragOverPoint s /\
  placing s' = placing s /\
  showAnnotations s' = showAnnotations s.
Proof.
  intros Hin. cbn zeta. split; [|split; [|split; [|split]]].
  - rewrite ids_delete, filter_In. intros [_ H].
    rewrite String.eqb_refl in H. discriminate H.
  - intros ann. unfold handleDeleteAnnotation, setAnnotations. cbn.
    rewrite filter_In, negb_true_iff, String.eqb_neq. reflexivity.
  - reflexivity.
  - unfold handleDeleteAnnotation, setAnnotations, ids in *. cbn.
    apply in_map_iff in Hin. destruct Hin as (ann & Hid & Hann).
    apply (filter_drops_one _ ann); [exact Hann|].
    rewrite Hid, String.eqb_refl. reflexivity.
  - repeat split.
Qed.

Lemma handleDeleteAnnotation_spec_witness :
  ~ In "a" (ids (handleDeleteAnnotation "a" drag_moved)) /\
  draggingId (handleDeleteAnnotation "a" drag_moved) = draggingId drag_moved /\
  dragOverPoint (handleDeleteAnnotation "a" drag_moved) =
    dragOverPoint drag_moved.
Proof.
  assert (Hin : In "a" (ids drag_moved)) by (left; reflexivity).
  destruct (handleDeleteAnnotation_spec "a" drag_moved Hin)
    as (Hgone & _ & _ & _ & Hd & Hp & _).
  split; [exact Hgone | split; [exact Hd | exact Hp]].
Defined.

(** ** The drag invariant *)

(** Between pointer-down on a marker and the first pointer move,
    [draggingId] is set while [dragOverPoint] is null. *)
Lemma drag_started_has_no_preview :
  reachable drag_started /\
  draggingId drag_started = Some "a" /\
  dragOverPoint drag_started = None /\
  ~ (dragOverPoint drag_started <> None <-> draggingId drag_started <> None).
Proof.
  split; [apply reachable_drag_started|].
  split; [reflexivity|]. split; [reflexivity|].
  intros [_ H]. apply H; [discriminate | reflexivity].
Qed.

Lemma draggingId_is_truthy (d : option string) (i : string) :
  draggingId_is d i = true -> d = Some i.
Proof.
  destruct d as [x|]; cbn; [|discriminate].
  intros H. apply String.eqb_eq in H. congruence.
Qed.

Lemma truthy_id_some (d : option string) :
  truthy_id d = true -> d <> None.
Proof. destruct d; [discriminate | cbn; discriminate]. Qed.

(** One step keeps: a preview point is only ever present together with a
    drag target.  Pointer moves write the preview only under their guard on
    [draggingId]; pointer-down and pointer-up reset it to null. *)
Lemma step_preview_has_target (s : State) (e : Event) :
  (dragOverPoint s <> None -> draggingId s <> None) ->
  dragOverPoint (step s e) <> None -> draggingId (step s e) <> None.
Proof.
  intros IH. destruct e as [|p u|p|i|i|i p|i t d|i|]; cbn.
  - exact IH.
  - unfold handleSceneClick. destruct (negb (placing s)); [exact IH|].
    cbn. exact IH.
  - unfold handleScenePointerMove. destruct (truthy_id (draggingId s)) eqn:E.
    + cbn. intros _. apply truthy_id_some. exact E.
    + exact IH.
  - intros H. exfalso. apply H. reflexivity.
  - intros H. exfalso. apply H. reflexivity.
  - unfold handleMarkerPointerMove.
    destruct (draggingId_is (draggingId s) i) eqn:E.
    + cbn. intros _. apply draggingId_is_truthy in E. rewrite E. discriminate.
    + exact IH.
  - exact IH.
  - exact IH.
  - exact IH.
Qed.

(** C3, as implemented. In every reachable state, if [dragOverPoint] is
    non-null then [draggingId] is non-null.  (The converse fails between
    pointer-down and the first pointer move.) *)
Theorem preview_only_while_dragging (s : State) :
  reachable s -> dragOverPoint s <> None -> draggingId s <> None.
Proof.
  induction 1 as [|s e Hs IH He].
  - intros H. exfalso. apply H. reflexivity.
  - apply step_preview_has_target. exact IH.
Qed.

Lemma preview_only_while_dragging_witness :
  draggingId drag_moved <> None.
Proof.
  apply (preview_only_while_dragging drag_moved reachable_drag_moved).
  discriminate.
Defined.

(** ** The sun arc: ranges, peak and symmetry *)

Lemma sun_position_eq (timeOfDay : R) :
  sun_position (getSunParams timeOfDay) =
  (cos (PI * ((timeOfDay - 6) / 12)) * 10,
   Rmax (sin (PI * ((timeOfDay - 6) / 12))) 0.05 * 10,
   7.5).
Proof. reflexivity. Qed.

Lemma Rmax_sin_range (x c : R) :
  0 <= c <= 1 -> c <= Rmax (sin x) c <= 1.
Proof.
  intros Hc. pose proof (SIN_bound x) as [_ Hs].
  unfold Rmax. destruct (Rle_dec (sin x) c); lra.
Qed.

(** X1. Whatever the time, the sun is placed within the scene box: its
    height is between 0.5 (the 0.05 floor times 10) and 10, its horizontal
    offset between -10 and 10, and its depth is the constant 7.5. *)
Theorem sun_position_bounds (timeOfDay : R) :
  exists x y : R,
    sun_position (getSunParams timeOfDay) = (x, y, 7.5) /\
    -10 <= x <= 10 /\
    0.5 <= y <= 10.
Proof.
  rewrite sun_position_eq.
  eexists. eexists. split; [reflexivity|].
  pose proof (COS_bound (PI * ((timeOfDay - 6) / 12))) as [Hc1 Hc2].
  pose proof (Rmax_sin_range (PI * ((timeOfDay - 6) / 12)) 0.05) as Hm.
  assert (H05 : 0 <= 0.05 <= 1) by lra. specialize (Hm H05).
  split; lra.
Qed.

Lemma sun_angle_inside (timeOfDay : R) :
  6 < timeOfDay < 18 ->
  0 < PI * ((timeOfDay - 6) / 12) < PI.
Proof.
  intros H. pose proof PI_RGT_0 as Hpi.
  split.
  - apply Rmult_lt_0_compat; lra.
  - rewrite <- (Rmult_1_r PI) at 2. apply Rmult_lt_compat_l; lra.
Qed.

Lemma sun_intensity_inside (timeOfDay : R) :
  6 <= timeOfDay <= 18 ->
  sun_intensity (getSunParams timeOfDay) =
  Rmax (sin (PI * ((timeOfDay - 6) / 12))) 0.
Proof.
  intros H. rewrite sun_intensity_eq.
  replace ((timeOfDay - 6) / 12 <? 0) with false by (symmetry; cmp_false).
  replace ((timeOfDay - 6) / 12 >? 1) with false by (symmetry; cmp_false).
  reflexivity.
Qed.

(** The intensity never leaves [[0, 1]]. *)
Lemma sun_intensity_unit (timeOfDay : R) :
  0 <= sun_intensity (getSunParams timeOfDay) <= 1.
Proof.
  rewrite sun_intensity_eq.
  destruct (((timeOfDay - 6) / 12 <? 0) || ((timeOfDay - 6) / 12 >? 1)).
  - lra.
  - apply (Rmax_sin_range (PI * ((timeOfDay - 6) / 12)) 0). lra.
Qed.

(** A positive intensity comes through the guard, hence from the arc. *)
Lemma sun_intensity_pos_on_arc (timeOfDay : R) :
  0 < sun_intensity (getSunParams timeOfDay) -> 6 <= timeOfDay <= 18.
Proof.
  intros Hpos.
  destruct (Rlt_dec timeOfDay 6) as [Hlo | Hlo].
  { rewrite sun_intensity_guard in Hpos by (left; exact Hlo). lra. }
  destruct (Rlt_dec 18 timeOfDay) as [Hhi | Hhi].
  { rewrite sun_intensity_guard in Hpos by (right; exact Hhi). lra. }
  lra.
Qed.

(** Strictly inside the arc the sine, and so the intensity, is positive. *)
Lemma sun_intensity_pos_inside (timeOfDay : R) :
  6 < timeOfDay < 18 -> 0 < sun_intensity (getSunParams timeOfDay).
Proof.
  intros Hin. rewrite sun_intensity_inside by lra.
  destruct (sun_angle_inside timeOfDay Hin) as [Ha Hb].
  pose proof (sin_gt_0 _ Ha Hb) as Hs.
  unfold Rmax. destruct (Rle_dec _ 0); lra.
Qed.

(** X2. The sun intensity always lies in [[0, 1]]; it is positive only
    on the arc, that is only when [6 <= timeOfDay <= 18], and it is
    positive everywhere strictly inside, when [6 < timeOfDay < 18]. *)
Theorem sun_intensity_range (timeOfDay : R) :
  0 <= sun_intensity (getSunParams timeOfDay) <= 1 /\
  (0 < sun_intensity (getSunParams timeOfDay) -> 6 <= timeOfDay <= 18) /\
  (6 < timeOfDay < 18 -> 0 < sun_intensity (getSunParams timeOfDay)).
Proof.
  split; [apply sun_intensity_unit|]. split.
  - apply sun_intensity_pos_on_arc.
  - apply sun_intensity_pos_inside.
Qed.

(** X3. Noon is the peak of the arc: at 12 the intensity is 1 and the
    sun is at height 10; at no time is the intensity larger or the sun
    higher. *)
Theorem sun_peak_at_noon :
  sun_intensity (getSunParams 12) = 1 /\
  snd (fst (sun_position (getSunParams 12))) = 10 /\
  (forall timeOfDay : R,
      sun_intensity (getSunParams timeOfDay)
      <= sun_intensity (getSunParams 12)) /\
  (forall timeOfDay : R,
      snd (fst (sun_position (getSunParams timeOfDay)))
      <= snd (fst (sun_position (getSunParams 12)))).
Proof.
  assert (Hang : PI * ((12 - 6) / 12) = PI / 2) by lra.
  assert (Hi : sun_intensity (getSunParams 12) = 1).
  { rewrite sun_intensity_inside by lra. rewrite Hang, sin_PI2.
    apply Rmax_left. lra. }
  assert (Hy : snd (fst (sun_position (getSunParams 12))) = 10).
  { rewrite sun_position_eq. cbn [fst snd]. rewrite Hang, sin_PI2.
    rewrite Rmax_left by lra. lra. }
  split; [exact Hi|]. split; [exact Hy|]. split.
  - intros timeOfDay. rewrite Hi. apply sun_intensity_unit.
  - intros timeOfDay. rewrite Hy. rewrite sun_position_eq. cbn [fst snd].
    pose proof (Rmax_sin_range (PI * ((timeOfDay - 6) / 12)) 0.05) as Hm.
    assert (H05 : 0 <= 0.05 <= 1) by lra. specialize (Hm H05). lra.
Qed.

(** ** Day and night: how the sun, the lamps and the sky fit together *)

(** X5. Whenever the sun has positive intensity it is not night: the
    ambient light has its day values and no point light is on, whatever the
    night-lights switch says. *)
Theorem sunshine_excludes_night (timeOfDay : R) (nightLightsEnabled : bool) :
  0 < sun_intensity (sunParams (App_lights timeOfDay nightLightsEnabled)) ->
  isNight timeOfDay = false /\
  pointLights (App_lights timeOfDay nightLightsEnabled) = [] /\
  ambientIntensity (App_lights timeOfDay nightLightsEnabled) = 0.4 /\
  ambientColor (App_lights timeOfDay nightLightsEnabled) = "#ffffff".
Proof.
  unfold App_lights, ModelViewer_lights, artificialLights.
  cbn [sunParams pointLights ambientIntensity ambientColor].
  intros Hpos. apply sun_intensity_pos_on_arc in Hpos.
  assert (Hday : isNight timeOfDay = false) by (apply isNight_false_iff; lra).
  rewrite Hday. cbn. repeat split.
Qed.

Lemma sunshine_excludes_night_witness :
  isNight 12 = false /\ pointLights (App_lights 12 true) = [].
Proof.
  assert (Hpos : 0 < sun_intensity (sunParams (App_lights 12 true))).
  { apply sun_intensity_pos_inside. lra. }
  destruct (sunshine_excludes_night 12 true Hpos) as (Hn & Hl & _).
  split; [exact Hn | exact Hl].
Defined.

Lemma elevation_day_eq (timeOfDay : R) (b : bool) :
  elevation (ModelViewer_lights timeOfDay b false) =
  10 + Rmax 0 (sin (PI * (timeOfDay - 6) / 12)) * 80.
Proof. reflexivity. Qed.

Lemma elevation_day_range (timeOfDay : R) (b : bool) :
  10 <= elevation (ModelViewer_lights timeOfDay b false) <= 90.
Proof.
  rewrite elevation_day_eq.
  pose proof (SIN_bound (PI * (timeOfDay - 6) / 12)) as [_ Hs].
  unfold Rmax. destruct (Rle_dec 0 _); lra.
Qed.

(** X6. The sky elevation is 2 degrees at night and between 10 and 90
    degrees otherwise, so it never takes a value strictly between 2 and 10;
    it is 90 at noon and is 10 after 18:00 until night begins at 20:00.
    The inclination handed to the sky is therefore in (0, 1]. *)
Theorem sky_elevation_range (timeOfDay : R) (nightLightsEnabled : bool) :
  let l := App_lights timeOfDay nightLightsEnabled in
  (isNight timeOfDay = true -> elevation l = 2) /\
  (isNight timeOfDay = false -> 10 <= elevation l <= 90) /\
  (18 < timeOfDay < 20 -> elevation l = 10) /\
  elevation (App_lights 12 nightLightsEnabled) = 90 /\
  0 < sky_inclination (App_sky timeOfDay nightLightsEnabled) <= 1.
Proof.
  cbn zeta. unfold App_sky, ModelViewer_sky, App_lights.
  cbn [sky_inclination].
  split; [|split; [|split; [|split]]].
  - intros Hn. rewrite Hn. reflexivity.
  - intros Hd. rewrite Hd. apply elevation_day_range.
  - intros H. assert (Hd : isNight timeOfDay = false)
      by (apply isNight_false_iff; lra).
    rewrite Hd, elevation_day_eq.
    pose proof PI_RGT_0 as Hpi.
    assert (Hs : sin (PI * (timeOfDay - 6) / 12) <= 0).
    { apply sin_le_0.
      - apply Rmult_le_reg_r with (r := 12); [lra|].
        replace (PI * (timeOfDay - 6) / 12 * 12) with (PI * (timeOfDay - 6))
          by lra.
        replace (PI * 12) with (PI * (18 - 6)) by lra.
        apply Rmult_le_compat_l; lra.
      - apply Rmult_le_reg_r with (r := 12); [lra|].
        replace (PI * (timeOfDay - 6) / 12 * 12) with (PI * (timeOfDay - 6))
          by lra.
        replace (2 * PI * 12) with (PI * 24) by lra.
        apply Rmult_le_compat_l; lra. }
    unfold Rmax. destruct (Rle_dec 0 _); lra.
  - assert (Hd : isNight 12 = false) by (apply isNight_false_iff; lra).
    rewrite Hd, elevation_day_eq.
    replace (PI * (12 - 6) / 12) with (PI / 2) by lra.
    rewrite sin_PI2. unfold Rmax. destruct (Rle_dec 0 1); lra.
  - destruct (isNight timeOfDay).
    + cbn [elevation ModelViewer_lights]. lra.
    + pose proof (elevation_day_range timeOfDay nightLightsEnabled). lra.
Qed.

(** X7. The sky azimuth sweeps linearly, 15 degrees per hour from 0 at
    6:00, and is not clamped: it is within [[0, 180]] exactly from 6:00 to
    18:00, so at night it is always outside that range; over the slider
    range 0..24 it runs from -90 to 270 degrees. *)
Theorem sky_azimuth_sweep (timeOfDay : R) (nightLightsEnabled : bool) :
  let az := azimuth (App_lights timeOfDay nightLightsEnabled) in
  az = 15 * (timeOfDay - 6) /\
  (0 <= az <= 180 <-> 6 <= timeOfDay <= 18) /\
  (isNight timeOfDay = true -> ~ (0 <= az <= 180)) /\
  (0 <= timeOfDay <= 24 -> -90 <= az <= 270) /\
  sky_azimuth (App_sky timeOfDay nightLightsEnabled) = az / 360.
Proof.
  cbn zeta. unfold App_sky, ModelViewer_sky, App_lights, ModelViewer_lights.
  cbn [azimuth sky_azimuth].
  split; [lra|]. split; [lra|]. split; [|split; [lra | reflexivity]].
  intros Hn. apply isNight_true_iff in Hn. lra.
Qed.

(** ** Dragging: commit, cancel and what is drawn *)

Lemma draggingId_is_refl (i : string) : draggingId_is (Some i) i = true.
Proof. cbn. apply String.eqb_refl. Qed.

Lemma draggingId_is_other (d : option string) (i : string) :
  d <> Some i -> draggingId_is d i = false.
Proof.
  intros H. destruct d as [x|]; cbn; [|reflexivity].
  apply String.eqb_neq. intros ->. apply H. reflexivity.
Qed.

(** X8. Pointer-up on the dragged marker after a pointer move commits the
    preview: every annotation with that identifier takes the preview point
    as its position and keeps its identifier, title and description; all
    other annotations, the length and the order of the list are unchanged;
    the drag state is cleared. *)
Theorem handleMarkerPointerUp_commits (id0 : string) (p : Point3) (s : State) :
  draggingId s = Some id0 ->
  dragOverPoint s = Some p ->
  let s' := handleMarkerPointerUp id0 s in
  List.length (annotations s') = List.length (annotations s) /\
  map id (annotations s') = map id (annotations s) /\
  map title (annotations s') = map title (annotations s) /\
  map description (annotations s') = map description (annotations s) /\
  (forall n ann, nth_error (annotations s) n = Some ann ->
     id ann <> id0 -> nth_error (annotations s') n = Some ann) /\
  (forall n ann, nth_error (annotations s) n = Some ann ->
     id ann = id0 ->
     nth_error (annotations s') n =
       Some (mkAnnotation (id ann) p (title ann) (description ann))) /\
  draggingId s' = None /\
  dragOverPoint s' = None /\
  placing s' = placing s.
Proof.
  intros Hd Hp. cbn zeta. unfold handleMarkerPointerUp.
  rewrite Hd, Hp, draggingId_is_refl. cbn.
  repeat split.
  - apply length_map.
  - apply map_id_edit. intros ann. destruct (String.eqb _ _); reflexivity.
  - rewrite map_map. apply map_ext. intros ann.
    destruct (String.eqb _ _); reflexivity.
  - rewrite map_map. apply map_ext. intros ann.
    destruct (String.eqb _ _); reflexivity.
  - intros n ann Hn Hne. rewrite nth_error_map, Hn. cbn.
    apply String.eqb_neq in Hne. rewrite Hne. reflexivity.
  - intros n ann Hn He. rewrite nth_error_map, Hn. cbn.
    apply String.eqb_eq in He. rewrite He. reflexivity.
Qed.

Lemma handleMarkerPointerUp_commits_witness :
  map position (annotations (handleMarkerPointerUp "a" two_markers_dragging_a))
  = [(4, 5, 6); (7, 8, 9)] /\
  draggingId (handleMarkerPointerUp "a" two_markers_dragging_a) = None.
Proof.
  destruct (handleMarkerPointerUp_commits "a" (4, 5, 6) two_markers_dragging_a
              eq_refl eq_refl) as (_ & _ & _ & _ & _ & _ & Hd & _).
  split; [reflexivity | exact Hd].
Defined.

(** X9. What is drawn is what is committed: when the pointer goes up on
    the dragged marker, the positions stored afterwards are, annotation by
    annotation, the positions the markers were drawn at just before. *)
Theorem commit_stores_drawn_positions (id0 : string) (s : State) :
  draggingId s = Some id0 ->
  map position (annotations (handleMarkerPointerUp id0 s)) =
  map (markerPosition s) (annotations s).
Proof.
  intros Hd. unfold handleMarkerPointerUp, markerPosition.
  rewrite Hd, draggingId_is_refl.
  destruct (dragOverPoint s) as [p|]; cbn.
  - rewrite map_map. apply map_ext. intros ann.
    rewrite (String.eqb_sym id0 (id ann)).
    destruct (String.eqb (id ann) id0); reflexivity.
  - apply map_ext. intros ann. destruct (String.eqb id0 (id ann)); reflexivity.
Qed.

Lemma commit_stores_drawn_positions_witness :
  map position (annotations (handleMarkerPointerUp "a" two_markers_dragging_a))
  = map (markerPosition two_markers_dragging_a)
        (annotations two_markers_dragging_a).
Proof.
  apply (commit_stores_drawn_positions "a" two_markers_dragging_a).
  reflexivity.
Defined.

(** X10. Pointer-up on a marker that is not the drag target commits
    nothing: the annotation list is unchanged, the preview is dropped and
    the drag is closed. *)
Theorem handleMarkerPointerUp_elsewhere_cancels (id0 : string) (s : State) :
  draggingId s <> Some id0 ->
  let s' := handleMarkerPointerUp id0 s in
  annotations s' = annotations s /\
  draggingId s' = None /\
  dragOverPoint s' = None /\
  placing s' = placing s /\
  showAnnotations s' = showAnnotations s.
Proof.
  intros Hd. cbn zeta. unfold handleMarkerPointerUp.
  rewrite (draggingId_is_other _ _ Hd). cbn. repeat split.
Qed.

Lemma handleMarkerPointerUp_elsewhere_cancels_witness :
  annotations (handleMarkerPointerUp "b" two_markers_dragging_a) =
    annotations two_markers_dragging_a /\
  draggingId (handleMarkerPointerUp "b" two_markers_dragging_a) = None /\
  dragOverPoint (handleMarkerPointerUp "b" two_markers_dragging_a) = None.
Proof.
  assert (Hd : draggingId two_markers_dragging_a <> Some "b") by discriminate.
  destruct (handleMarkerPointerUp_elsewhere_cancels "b"
              two_markers_dragging_a Hd) as (Ha & Hi & Hp & _).
  split; [exact Ha | split; [exact Hi | exact Hp]].
Defined.

(** ** What the handlers keep *)

(** X11. Stored positions move only on pointer-up.  After any other
    event every annotation of the list either was in the list before with
    the same identifier and position, or is the annotation just placed by
    an armed scene click. *)
Theorem positions_move_only_on_pointer_up (s : State) (e : Event) :
  (forall i, e <> EvMarkerPointerUp i) ->
  forall ann', In ann' (annotations (step s e)) ->
    (exists ann, In ann (annotations s) /\
                 id ann = id ann' /\ position ann = position ann') \/
    (exists p u, e = EvSceneClick p u /\ placing s = true /\
                 ann' = mkAnnotation u p "New Annotation" "").
Proof.
  intros Hup ann' Hin.
  assert (Hsame : In ann' (annotations s) ->
                  exists ann, In ann (annotations s) /\
                              id ann = id ann' /\ position ann = position ann')
    by (intros H; exists ann'; auto).
  destruct e as [|p u|p|i|i|i p|i t d|i|]; cbn in Hin.
  - left. apply Hsame. exact Hin.
  - unfold handleSceneClick in Hin. destruct (placing s) eqn:Hpl; cbn in Hin.
    + apply in_app_or in Hin. destruct Hin as [Hin | [Hin | []]].
      * left. apply Hsame. exact Hin.
      * right. exists p, u. auto.
    + left. apply Hsame. exact Hin.
  - unfold handleScenePointerMove in Hin.
    destruct (truthy_id (draggingId s)); left; apply Hsame; exact Hin.
  - left. apply Hsame. exact Hin.
  - exfalso. apply (Hup i). reflexivity.
  - unfold handleMarkerPointerMove in Hin.
    destruct (draggingId_is (draggingId s) i); left; apply Hsame; exact Hin.
  - left. apply in_map_iff in Hin. destruct Hin as (ann & Heq & Hann).
    exists ann. split; [exact Hann|].
    destruct (String.eqb (id ann) i); subst ann'; auto.
  - left. apply filter_In in Hin. destruct Hin as [Hin _].
    apply Hsame. exact Hin.
  - left. apply Hsame. exact Hin.
Qed.

Lemma positions_move_only_on_pointer_up_witness :
  (exists ann, In ann (annotations drag_started) /\
               id ann = "a" /\ position ann = (1, 2, 3)) \/
  (exists p u, EvScenePointerMove (4, 5, 6) = EvSceneClick p u /\
               placing drag_started = true /\
               mkAnnotation "a" (1, 2, 3) "New Annotation" "" =
               mkAnnotation u p "New Annotation" "").
Proof.
  apply (positions_move_only_on_pointer_up drag_started
           (EvScenePointerMove (4, 5, 6)) (fun i => ltac:(discriminate))
           (mkAnnotation "a" (1, 2, 3) "New Annotation" "")).
  left. reflexivity.
Defined.

Lemma ids_step_unique (s : State) (e : Event) :
  NoDup (ids s) ->
  match e with
  | EvSceneClick _ u => ~ In u (ids s)
  | _ => True
  end ->
  NoDup (ids (step s e)).
Proof.
  intros Hnd Hfresh.
  destruct e as [|p u|p|i|i|i p|i t d|i|]; cbn [step].
  - exact Hnd.
  - unfold handleSceneClick. destruct (placing s); cbn; [|exact Hnd].
    unfold ids in *. cbn. rewrite map_app. cbn.
    apply NoDup_app; [exact Hnd | repeat constructor; intros [] |].
    intros x Hx [Hu | []]. subst x. exact (Hfresh Hx).
  - unfold handleScenePointerMove. destruct (truthy_id _); exact Hnd.
  - exact Hnd.
  - unfold handleMarkerPointerUp, ids in *.
    destruct (draggingId_is (draggingId s) i), (dragOverPoint s); cbn;
      try exact Hnd.
    rewrite map_id_edit; [exact Hnd|].
    intros ann. destruct (String.eqb _ _); reflexivity.
  - unfold handleMarkerPointerMove. destruct (draggingId_is _ _); exact Hnd.
  - unfold ids in *. cbn. rewrite map_id_edit; [exact Hnd|].
    intros ann. destruct (String.eqb _ _); reflexivity.
  - rewrite ids_delete. apply NoDup_filter. exact Hnd.
  - exact Hnd.
Qed.

(** X12. Identifiers stay pairwise distinct along every run in which
    each [uuidv4()] result is unused when it is drawn: no handler copies an
    annotation or rewrites an identifier. *)
Theorem ids_unique_along_runs (es : list Event) :
  forall s : State,
    NoDup (ids s) -> fresh_uuids s es -> NoDup (ids (run s es)).
Proof.
  induction es as [|e es IH]; intros s Hnd Hfr; cbn in *.
  - exact Hnd.
  - destruct Hfr as [He Hes]. apply IH; [|exact Hes].
    apply ids_step_unique; assumption.
Qed.

Lemma ids_unique_along_runs_witness : NoDup (ids two_markers_dragging_a).
Proof.
  unfold two_markers_dragging_a.
  apply ids_unique_along_runs.
  - constructor.
  - cbv. repeat split; try tauto.
    intros [Hab | []]. discriminate Hab.
Defined.

Lemma arming_budget_step (s : State) (e : Event) :
  (List.length (annotations (step s e))
   + (if placing (step s e) then 1 else 0)
   <= List.length (annotations s) + (if placing s then 1 else 0)
      + armings [e])%nat.
Proof.
  destruct e as [|p u|p|i|i|i p|i t d|i|]; cbn.
  - destruct (placing s); lia.
  - unfold handleSceneClick. destruct (placing s) eqn:E; cbn.
    + rewrite length_app. cbn. lia.
    + rewrite E. lia.
  - unfold handleScenePointerMove. destruct (truthy_id _); cbn; lia.
  - lia.
  - unfold handleMarkerPointerUp.
    destruct (draggingId_is (draggingId s) i), (dragOverPoint s); cbn;
      try rewrite length_map; lia.
  - unfold handleMarkerPointerMove. destruct (draggingId_is _ _); cbn; lia.
  - rewrite length_map. lia.
  - pose proof (filter_length_le
                  (fun ann => negb (String.eqb (id ann) i)) (annotations s)).
    lia.
  - lia.
Qed.

Lemma armings_cons (e : Event) (es : list Event) :
  armings (e :: es) = (armings [e] + armings es)%nat.
Proof. destruct e; cbn; lia. Qed.

Lemma arming_budget_run (es : list Event) :
  forall s : State,
    (List.length (annotations (run s es))
     + (if placing (run s es) then 1 else 0)
     <= List.length (annotations s) + (if placing s then 1 else 0)
        + armings es)%nat.
Proof.
  induction es as [|e es IH]; intros s.
  - cbn. lia.
  - rewrite armings_cons. cbn [run fold_left].
    pose proof (IH (step s e)) as H1. unfold run in H1.
    pose proof (arming_budget_step s e) as H2. lia.
Qed.

(** X13. Every annotation was paid for by a press of the place button:
    after any sequence of events from the initial state the number of
    annotations, plus one if placement is still armed, is at most the
    number of presses. *)
Theorem annotations_bounded_by_armings (es : list Event) :
  (List.length (annotations (run initialState es))
   + (if placing (run initialState es) then 1 else 0)
   <= armings es)%nat.
Proof.
  pose proof (arming_budget_run es initialState) as H. cbn in H. exact H.
Qed.

(** ** How the list operations compose *)

Lemma filter_unchanged {A : Type} (f : A -> bool) (l : list A) :
  (forall x, In x l -> f x = true) -> filter f l = l.
Proof.
  intros H. induction l as [|a l IH]; cbn; [reflexivity|].
  rewrite H by (left; reflexivity). f_equal. apply IH.
  intros x Hx. apply H. right. exact Hx.
Qed.

Lemma filter_twice {A : Type} (f : A -> bool) (l : list A) :
  filter f (filter f l) = filter f l.
Proof.
  apply filter_unchanged. intros x Hx. apply filter_In in Hx. apply Hx.
Qed.

(** X14. Deleting an identifier that is not in the list changes nothing,
    deleting twice is the same as deleting once, and two deletions can be
    done in either order. *)
Theorem handleDeleteAnnotation_absent_idempotent (s : State) :
  (forall id0, ~ In id0 (ids s) -> handleDeleteAnnotation id0 s = s) /\
  (forall id0, handleDeleteAnnotation id0 (handleDeleteAnnotation id0 s) =
               handleDeleteAnnotation id0 s) /\
  (forall id1 id2,
      handleDeleteAnnotation id1 (handleDeleteAnnotation id2 s) =
      handleDeleteAnnotation id2 (handleDeleteAnnotation id1 s)).
Proof.
  destruct s as [l sh pl dr dp].
  unfold handleDeleteAnnotation, setAnnotations, ids. cbn.
  split; [|split].
  - intros id0 Hnot. f_equal. apply filter_unchanged. intros ann Hin.
    apply negb_true_iff, String.eqb_neq. intros He. apply Hnot.
    rewrite <- He. apply in_map. exact Hin.
  - intros id0. f_equal. apply filter_twice.
  - intros id1 id2. f_equal.
    induction l as [|a l IH]; cbn; [reflexivity|].
    destruct (String.eqb (id a) id1) eqn:E1, (String.eqb (id a) id2) eqn:E2;
      cbn; rewrite ?E1, ?E2; cbn; rewrite IH; reflexivity.
Qed.

(** X15. For one identifier the last edit wins: an edit overwrites
    whatever an earlier edit of the same identifier wrote.  Edits of
    different identifiers commute. *)
Theorem handleEditAnnotation_compose (s : State) :
  (forall id0 t1 d1 t2 d2,
      handleEditAnnotation id0 t2 d2 (handleEditAnnotation id0 t1 d1 s) =
      handleEditAnnotation id0 t2 d2 s) /\
  (forall id1 t1 d1 id2 t2 d2,
      id1 <> id2 ->
      handleEditAnnotation id1 t1 d1 (handleEditAnnotation id2 t2 d2 s) =
      handleEditAnnotation id2 t2 d2 (handleEditAnnotation id1 t1 d1 s)).
Proof.
  destruct s as [l sh pl dr dp].
  unfold handleEditAnnotation, setAnnotations. cbn. split.
  - intros id0 t1 d1 t2 d2. f_equal. rewrite map_map. apply map_ext.
    intros ann. destruct (String.eqb (id ann) id0) eqn:E; cbn; rewrite E;
      reflexivity.
  - intros id1 t1 d1 id2 t2 d2 Hne. f_equal. rewrite !map_map. apply map_ext.
    intros ann.
    destruct (String.eqb (id ann) id1) eqn:E1, (String.eqb (id ann) id2) eqn:E2;
      cbn; rewrite ?E1, ?E2; try reflexivity.
    apply String.eqb_eq in E1, E2. congruence.
Qed.

(** X16. A scene click consumes the arming: whatever the state, a second
    scene click right after a first one changes nothing. *)
Theorem handleSceneClick_consumes_arming
  (p1 p2 : Point3) (u1 u2 : string) (s : State) :
  handleSceneClick p2 u2 (handleSceneClick p1 u1 s) = handleSceneClick p1 u1 s.
Proof.
  unfold handleSceneClick at 2 3. destruct (placing s) eqn:E; cbn.
  - reflexivity.
  - unfold handleSceneClick. rewrite E. reflexivity.
Qed.

Lemma unique_id_same_annotation (l : list Annotation) (a b : Annotation) :
  NoDup (map id l) -> In a l -> In b l -> id a = id b -> a = b.
Proof.
  induction l as [|x l IH]; intros Hnd Ha Hb Hid; [destruct Ha|].
  cbn in Hnd. inversion Hnd as [|y ys Hnotin Hnd']; subst.
  destruct Ha as [-> | Ha], Hb as [-> | Hb].
  - reflexivity.
  - exfalso. apply Hnotin. rewrite Hid. apply in_map. exact Hb.
  - exfalso. apply Hnotin. rewrite <- Hid. apply in_map. exact Ha.
  - apply IH; assumption.
Qed.

(** X17. With pairwise distinct identifiers, typing into the title input
    of a sidebar entry changes the title of that annotation and nothing
    else: all identifiers, positions and descriptions, and the titles of
    the other annotations, are kept.  The same for the description box,
    with titles and descriptions exchanged. *)
Theorem Sidebar_edits_one_field (ann : Annotation) (value : string) (s : State) :
  NoDup (ids s) ->
  In ann (annotations s) ->
  let edited a (f : Annotation -> Annotation) :=
    if String.eqb (id a) (id ann) then f a else a in
  annotations (Sidebar_onTitleChange ann value s) =
    map (fun a => edited a (fun a =>
           mkAnnotation (id a) (position a) value (description a)))
        (annotations s) /\
  map description (annotations (Sidebar_onTitleChange ann value s)) =
    map description (annotations s) /\
  annotations (Sidebar_onDescriptionChange ann value s) =
    map (fun a => edited a (fun a =>
           mkAnnotation (id a) (position a) (title a) value))
        (annotations s) /\
  map title (annotations (Sidebar_onDescriptionChange ann value s)) =
    map title (annotations s).
Proof.
  intros Hnd Hin. cbn zeta.
  assert (Hsame : forall a, In a (annotations s) ->
                            String.eqb (id a) (id ann) = true -> a = ann).
  { intros a Ha He. apply String.eqb_eq in He.
    apply (unique_id_same_annotation (annotations s)); assumption. }
  unfold Sidebar_onTitleChange, Sidebar_onDescriptionChange,
    handleEditAnnotation, setAnnotations. cbn.
  repeat split.
  - apply map_ext_in. intros a Ha.
    destruct (String.eqb (id a) (id ann)) eqn:E; [|reflexivity].
    rewrite (Hsame a Ha E). reflexivity.
  - rewrite map_map. apply map_ext_in. intros a Ha.
    destruct (String.eqb (id a) (id ann)) eqn:E; [|reflexivity].
    rewrite (Hsame a Ha E). reflexivity.
  - apply map_ext_in. intros a Ha.
    destruct (String.eqb (id a) (id ann)) eqn:E; [|reflexivity].
    rewrite (Hsame a Ha E). reflexivity.
  - rewrite map_map. apply map_ext_in. intros a Ha.
    destruct (String.eqb (id a) (id ann)) eqn:E; [|reflexivity].
    rewrite (Hsame a Ha E). reflexivity.
Qed.

Lemma Sidebar_edits_one_field_witness :
  annotations
    (Sidebar_onTitleChange
       (mkAnnotation "a" (1, 2, 3) "New Annotation" "") "Door" one_marker) =
    [mkAnnotation "a" (1, 2, 3) "Door" ""].
Proof.
  assert (Hnd : NoDup (ids one_marker)).
  { repeat constructor. intros []. }
  assert (Hin : In (mkAnnotation "a" (1, 2, 3) "New Annotation" "")
                   (annotations one_marker)) by (left; reflexivity).
  destruct (Sidebar_edits_one_field
              (mkAnnotation "a" (1, 2, 3) "New Annotation" "") "Door"
              one_marker Hnd Hin) as (Ht & _).
  rewrite Ht. reflexivity.
Defined.

(** ** Context loss: bounded reloads *)

Lemma contextLosses_spec (n : nat) :
  forall r : LossRefs,
    (reloadAttemptsRef r <= 2)%nat ->
    let '(r', out) := contextLosses n r in
    reloadAttemptsRef r' = Nat.min 2 (reloadAttemptsRef r + n) /\
    List.length (filter is_reload out) =
      (Nat.min 2 (reloadAttemptsRef r + n) - reloadAttemptsRef r)%nat /\
    List.length (filter is_preventDefault out) = n /\
    contextLostRef r' = (contextLostRef r || Nat.ltb 0 n).
Proof.
  induction n as [|n IH]; intros r Hr.
  - cbn [contextLosses filter List.length Nat.ltb Nat.leb].
    rewrite orb_false_r. repeat split; lia.
  - cbn [contextLosses]. unfold handleContextLost. cbn [reloadAttemptsRef].
    destruct (Nat.ltb (reloadAttemptsRef r) 2) eqn:E.
    + apply Nat.ltb_lt in E.
      specialize (IH {| contextLostRef := true;
                        reloadAttemptsRef := S (reloadAttemptsRef r) |}).
      cbn [reloadAttemptsRef contextLostRef] in IH.
      destruct (contextLosses n _) as [r' out].
      destruct IH as (Ha & Hb & Hc & Hd); [lia|].
      rewrite !filter_app, !length_app, Ha, Hb, Hc, Hd.
      cbn [filter is_reload is_preventDefault List.length orb Nat.ltb Nat.leb].
      rewrite orb_true_r. repeat split; lia.
    + apply Nat.ltb_ge in E.
      specialize (IH {| contextLostRef := true;
                        reloadAttemptsRef := reloadAttemptsRef r |}).
      cbn [reloadAttemptsRef contextLostRef] in IH.
      destruct (contextLosses n _) as [r' out].
      destruct IH as (Ha & Hb & Hc & Hd); [lia|].
      rewrite !filter_app, !length_app, Ha, Hb, Hc, Hd.
      cbn [filter is_reload is_preventDefault List.length orb Nat.ltb Nat.leb].
      rewrite orb_true_r. repeat split; lia.
Qed.

(** X18. However many times the WebGL context is lost on a mounted
    canvas, the listener schedules at most two page reloads: after [n]
    losses the attempt counter and the number of scheduled reloads are both
    [min 2 n], while the default action of every one of the [n] events is
    prevented. *)
Theorem context_loss_reloads_bounded (n : nat) :
  let r' := fst (contextLosses n initialLossRefs) in
  let out := snd (contextLosses n initialLossRefs) in
  reloadAttemptsRef r' = Nat.min 2 n /\
  List.length (filter is_reload out) = Nat.min 2 n /\
  (List.length (filter is_reload out) <= 2)%nat /\
  List.length (filter is_preventDefault out) = n /\
  contextLostRef r' = Nat.ltb 0 n.
Proof.
  cbn zeta. pose proof (contextLosses_spec n initialLossRefs) as H.
  destruct (contextLosses n initialLossRefs) as [r' out].
  cbn [fst snd reloadAttemptsRef contextLostRef initialLossRefs] in *.
  destruct H as (Ha & Hb & Hc & Hd); [lia|].
  rewrite Ha, Hb, Hc, Hd. cbn [orb Nat.add]. repeat split; lia.
Qed.

Example context_loss_three_times :
  snd (contextLosses 3 initialLossRefs) =
  [ ConsoleLog "WebGL Context Lost - Attempting recovery...";
    PreventDefault; ConsoleLogAttempt 1; SetTimeoutReload 1000;
    ConsoleLog "WebGL Context Lost - Attempting recovery...";
    PreventDefault; ConsoleLogAttempt 2; SetTimeoutReload 1000;
    ConsoleLog "WebGL Context Lost - Attempting recovery...";
    PreventDefault; ConsoleLog "Too many reload attempts, stopping..." ].
Proof. reflexivity. Qed.

(** ** The HDRI scene and its fallback *)

Lemma hdri_step_error_sticky (s : HdriState) (e : HdriEvent) :
  hdriError s = true -> hdriError (hdri_step s e) = true.
Proof. intros H. destruct e; cbn; auto. Qed.

Lemma hdri_run_error_sticky (es : list HdriEvent) :
  forall s, hdriError s = true -> hdriError (hdri_run s es) = true.
Proof.
  induction es as [|e es IH]; intros s H; cbn; [exact H|].
  apply IH. apply hdri_step_error_sticky. exact H.
Qed.

(** X19. Once [hdriError] is set, by the timer or by the loader, the
    component renders [SimpleScene] for good: no later callback brings the
    HDRI scene back, in particular not a load that completes after the
    timer has fired. *)
Theorem hdri_error_is_final (s : HdriState) (es : list HdriEvent) :
  hdriError s = true ->
  SafeHdriScene (hdri_run s es) = SimpleScene.
Proof.
  intros H. unfold SafeHdriScene.
  rewrite (hdri_run_error_sticky es s H). reflexivity.
Qed.

Lemma hdri_error_is_final_witness :
  hdriLoaded
    (hdri_run (hdri_step initialHdriState HdriTimeout)
       [HdriOnLoad (mkTexture 1 LoaderMapping)]) = true /\
  SafeHdriScene
    (hdri_run (hdri_step initialHdriState HdriTimeout)
       [HdriOnLoad (mkTexture 1 LoaderMapping)]) = SimpleScene.
Proof.
  split; [reflexivity|].
  apply (hdri_error_is_final (hdri_step initialHdriState HdriTimeout)).
  reflexivity.
Defined.

Lemma hdri_run_texture_ok (es : list HdriEvent) :
  forall s, hdri_texture_ok s -> hdri_texture_ok (hdri_run s es).
Proof.
  induction es as [|e es IH]; intros s H; cbn; [exact H|].
  apply IH. unfold hdri_texture_ok in *. destruct e; cbn; auto.
  intros _. eexists. split; reflexivity.
Qed.

(** X20. After any callbacks since mount the component renders one of
    two things: [SimpleScene] (also while the texture is still loading), or,
    when the load succeeded and no error was recorded, the HDRI scene, whose
    background and environment are one and the same loaded texture, set to
    equirectangular reflection mapping, with ambient light 0.5 and
    directional light 1. *)
Theorem SafeHdriScene_two_outcomes (es : list HdriEvent) :
  let s := hdri_run initialHdriState es in
  (SafeHdriScene s = SimpleScene /\
   (hdriError s = true \/ hdriLoaded s = false)) \/
  (exists t,
      hdriLoaded s = true /\ hdriError s = false /\
      hdriRef s = Some t /\
      mapping t = EquirectangularReflectionMapping /\
      SafeHdriScene s =
        {| scene_background := Some (BackgroundTexture t);
           scene_environment := Some t;
           scene_ambient := 0.5;
           scene_directional_position := (5, 10, 7.5);
           scene_directional_intensity := 1;
           scene_box_position := (0, 1, 0);
           scene_box_color := "orange" |}).
Proof.
  cbn zeta.
  assert (Hok : hdri_texture_ok (hdri_run initialHdriState es)).
  { apply hdri_run_texture_ok. intros H. discriminate H. }
  unfold SafeHdriScene.
  destruct (hdriError (hdri_run initialHdriState es)) eqn:He.
  - left. split; [reflexivity | left; reflexivity].
  - destruct (hdriLoaded (hdri_run initialHdriState es)) eqn:Hl; cbn.
    + right. destruct (Hok Hl) as (t & Hr & Hm).
      exists t. rewrite Hr. cbn. repeat split. exact Hm.
    + left. split; [reflexivity | right; reflexivity].
Qed.

Lemma scene_lights_range (useHdri : bool) (h : HdriState) :
  scene_directional_position (ModelViewer_scene useHdri h) = (5, 10, 7.5) /\
  0.8 <= scene_directional_intensity (ModelViewer_scene useHdri h) <= 1 /\
  0.5 <= scene_ambient (ModelViewer_scene useHdri h) <= 0.6.
Proof.
  unfold ModelViewer_scene, SafeHdriScene.
  destruct useHdri, (hdriError h), (hdriLoaded h); cbn;
    (split; [reflexivity | lra]).
Qed.

(** X21. The canvas is never without light.  Besides the time-based sun
    light there is always the scene component's own directional light, at
    (5, 10, 7.5) with intensity between 0.8 and 1, and its ambient light:
    at every time of day, with HDRI on or off and whatever its loading
    state, the directional intensities add up to at least 0.8 and the
    ambient intensities to at least 0.65. *)
Theorem canvas_never_dark
  (timeOfDay : R) (useHdri : bool) (h : HdriState) :
  (exists i, In ((5, 10, 7.5), i)
                (canvas_directionalLights timeOfDay useHdri h) /\
             0.8 <= i <= 1) /\
  0.8 <= fold_right Rplus 0
           (map snd (canvas_directionalLights timeOfDay useHdri h)) <= 2 /\
  0.65 <= fold_right Rplus 0
            (canvas_ambientLights (isNight timeOfDay) useHdri h) <= 1.
Proof.
  destruct (scene_lights_range useHdri h) as (Hp & Hi & Ha).
  pose proof (sun_intensity_unit timeOfDay) as Hs.
  unfold canvas_directionalLights, canvas_ambientLights. cbn [map snd fold_right].
  split; [|split].
  - exists (scene_directional_intensity (ModelViewer_scene useHdri h)).
    split; [|exact Hi]. right. left. rewrite Hp. reflexivity.
  - lra.
  - destruct (isNight timeOfDay); lra.
Qed.

(** ** Uploaded models: which loader, and what is shown *)

Lemma toLowerCase_app (a b : string) :
  toLowerCase (a ++ b) = toLowerCase a ++ toLowerCase b.
Proof.
  induction a as [|c a IH]; cbn; [reflexivity|]. rewrite IH. reflexivity.
Qed.

Lemma endsWith_refl (x : string) : endsWith x x = true.
Proof.
  destruct x; cbn [endsWith]; rewrite String.eqb_refl; reflexivity.
Qed.

Lemma endsWith_app (a x : string) : endsWith (a ++ x) x = true.
Proof.
  induction a as [|c a IH].
  - apply endsWith_refl.
  - change (String c a ++ x) with (String c (a ++ x)). cbn [endsWith].
    rewrite IH. destruct (String.eqb _ _); reflexivity.
Qed.

Lemma endsWith_split (s x : string) :
  endsWith s x = true -> exists a, s = a ++ x.
Proof.
  induction s as [|c s IH]; cbn [endsWith].
  - destruct (String.eqb "" x) eqn:E; [|discriminate].
    intros _. apply String.eqb_eq in E. exists "". exact E.
  - destruct (String.eqb (String c s) x) eqn:E.
    + intros _. apply String.eqb_eq in E. exists "". exact E.
    + intros H. destruct (IH H) as [a Ha]. exists (String c a).
      cbn. rewrite Ha. reflexivity.
Qed.

Lemma toLowerCase_split (a x : string) :
  forall s, toLowerCase s = a ++ x ->
            exists stem ext, s = stem ++ ext /\ toLowerCase ext = x.
Proof.
  induction a as [|c a IH]; intros s H.
  - exists "", s. split; [reflexivity | exact H].
  - destruct s as [|c0 s]; [discriminate H|].
    cbn in H. injection H as _ H.
    destruct (IH s H) as (stem & ext & Hs & He).
    exists (String c0 stem), ext. split; [cbn; rewrite Hs; reflexivity | exact He].
Qed.

Lemma string_app_length (a b : string) :
  String.length (a ++ b) = (String.length a + String.length b)%nat.
Proof. induction a as [|c a IH]; cbn; [reflexivity | rewrite IH; reflexivity]. Qed.

Lemma same_length_suffix (a b x y : string) :
  a ++ x = b ++ y -> String.length x = String.length y -> x = y.
Proof.
  revert b. induction a as [|c a IH]; intros b H Hlen.
  - destruct b as [|d b]; [exact H|].
    cbn in H. apply (f_equal String.length) in H.
    cbn in H. rewrite string_app_length in H. lia.
  - destruct b as [|d b].
    + cbn in H. apply (f_equal String.length) in H.
      cbn in H. rewrite string_app_length in H. lia.
    + cbn in H. injection H as _ H. apply (IH b); assumption.
Qed.

Lemma endsWith_exclusive (s x y : string) :
  endsWith s x = true -> String.length x = String.length y -> x <> y ->
  endsWith s y = false.
Proof.
  intros Hx Hlen Hne. destruct (endsWith s y) eqn:Hy; [|reflexivity].
  exfalso. apply Hne.
  destruct (endsWith_split _ _ Hx) as [a Ha].
  destruct (endsWith_split _ _ Hy) as [b Hb].
  apply (same_length_suffix a b). { rewrite <- Ha, <- Hb. reflexivity. }
  exact Hlen.
Qed.

Lemma toLowerCase_length (s : string) :
  String.length (toLowerCase s) = String.length s.
Proof. induction s as [|c s IH]; cbn; [reflexivity | rewrite IH; reflexivity]. Qed.

(** X22. The loader is chosen by the last four characters of the file
    name, ignoring case: a name gets the OBJ loader exactly when it ends in
    an extension that lower-cases to ".obj", the FBX loader exactly when it
    ends in one that lower-cases to ".fbx", and is unsupported otherwise;
    in particular every name shorter than four characters is unsupported. *)
Theorem loaderFor_spec (name : string) :
  (loaderFor name = Some OBJLoader <->
   exists stem ext, name = stem ++ ext /\ toLowerCase ext = ".obj") /\
  (loaderFor name = Some FBXLoader <->
   exists stem ext, name = stem ++ ext /\ toLowerCase ext = ".fbx") /\
  ((String.length name < 4)%nat -> loaderFor name = None).
Proof.
  assert (Hends : forall x,
             endsWith (toLowerCase name) x = true <->
             exists stem ext, name = stem ++ ext /\ toLowerCase ext = x).
  { intros x. split.
    - intros H. destruct (endsWith_split _ _ H) as [a Ha].
      apply (toLowerCase_split a x). exact Ha.
    - intros (stem & ext & -> & <-). rewrite toLowerCase_app.
      apply endsWith_app. }
  assert (Hlen : forall x, endsWith (toLowerCase name) x = true ->
                           (String.length x <= String.length name)%nat).
  { intros x H. destruct (endsWith_split _ _ H) as [a Ha].
    rewrite <- (toLowerCase_length name), Ha, string_app_length. lia. }
  unfold loaderFor.
  destruct (endsWith (toLowerCase name) ".obj") eqn:Eo.
  - assert (Ef : endsWith (toLowerCase name) ".fbx" = false).
    { apply (endsWith_exclusive _ ".obj"); [exact Eo | reflexivity | discriminate]. }
    split; [|split].
    + split; [intros _; apply Hends; exact Eo | reflexivity].
    + split; [discriminate|]. intros H. apply Hends in H. congruence.
    + intros Hshort. apply Hlen in Eo. cbn in Eo. lia.
  - destruct (endsWith (toLowerCase name) ".fbx") eqn:Ef.
    + split; [|split].
      * split; [discriminate|]. intros H. apply Hends in H. congruence.
      * split; [intros _; apply Hends; exact Ef | reflexivity].
      * intros Hshort. apply Hlen in Ef. cbn in Ef. lia.
    + split; [|split].
      * split; [discriminate|]. intros H. apply Hends in H. congruence.
      * split; [discriminate|]. intros H. apply Hends in H. congruence.
      * reflexivity.
Qed.

Example loaderFor_samples :
  loaderFor "chair.obj" = Some OBJLoader /\
  loaderFor "CHAIR.OBJ" = Some OBJLoader /\
  loaderFor "robot.Fbx" = Some FBXLoader /\
  loaderFor ".obj" = Some OBJLoader /\
  loaderFor "chair.obj.zip" = None /\
  loaderFor "obj" = None /\
  loaderFor "" = None.
Proof. repeat split. Qed.

Lemma truthy_string_append (prefix message : string) :
  prefix <> "" -> truthy_string (Some (prefix ++ message)) = true.
Proof.
  intros H. destruct prefix as [|c p]; [contradiction|]. reflexivity.
Qed.

Lemma LoadedModel_step_error_sticky (s : LoadedModelState)
  (e : LoadedModelEvent) :
  truthy_string (lm_error s) = true ->
  truthy_string (lm_error (LoadedModel_step s e)) = true.
Proof.
  intros H. destruct e as [name thrown | k obj | k message]; cbn.
  - destruct (loaderFor name); [|reflexivity].
    destruct thrown; [reflexivity | exact H].
  - destruct (nth_error (lm_effects s) k) as [[[kind|] [|]]|]; exact H.
  - destruct (nth_error (lm_effects s) k) as [[[[|]|] [|]]|];
      try exact H; reflexivity.
Qed.

Lemma LoadedModel_render_RedBox (s : LoadedModelState) :
  LoadedModel_render s = RedBox <-> truthy_string (lm_error s) = true.
Proof.
  unfold LoadedModel_render. destruct (truthy_string (lm_error s)).
  - split; reflexivity.
  - destruct (lm_object s); split; discriminate.
Qed.

(** X23. The red error box is final.  Once [LoadedModel] shows it (after
    an unsupported file, a failed load or an exception) it keeps showing
    it whatever happens next: choosing another file, even one that then
    loads successfully, does not bring a model on screen, because no path
    resets [error]. *)
Theorem LoadedModel_error_is_final
  (s : LoadedModelState) (es : list LoadedModelEvent) :
  LoadedModel_render s = RedBox ->
  LoadedModel_render (LoadedModel_run s es) = RedBox.
Proof.
  rewrite !LoadedModel_render_RedBox. revert s.
  induction es as [|e es IH]; intros s H; cbn; [exact H|].
  apply IH. apply LoadedModel_step_error_sticky. exact H.
Qed.

Lemma LoadedModel_error_is_final_witness :
  lm_object
    (LoadedModel_run
       (LoadedModel_step initialLoadedModel (LmFile "notes.txt" None))
       [LmFile "chair.obj" None; LmOnLoad 1 (mkObject3D 7)])
  = Some (mkObject3D 7) /\
  LoadedModel_render
    (LoadedModel_run
       (LoadedModel_step initialLoadedModel (LmFile "notes.txt" None))
       [LmFile "chair.obj" None; LmOnLoad 1 (mkObject3D 7)])
  = RedBox.
Proof.
  split; [reflexivity|].
  apply (LoadedModel_error_is_final
           (LoadedModel_step initialLoadedModel (LmFile "notes.txt" None))).
  reflexivity.
Defined.

Lemma dispose_last_all (l : list EffectRun) :
  older_disposed l -> Forall (fun r => run_disposed r = true) (dispose_last l).
Proof.
  induction l as [|r l IH]; intros H; [constructor|].
  destruct l as [|r' l'].
  - cbn. repeat constructor.
  - destruct H as [Hr Hl]. change (dispose_last (r :: r' :: l'))
      with (r :: dispose_last (r' :: l')).
    constructor; [exact Hr | apply IH; exact Hl].
Qed.

Lemma older_disposed_snoc (l : list EffectRun) (r : EffectRun) :
  Forall (fun r => run_disposed r = true) l -> older_disposed (l ++ [r]).
Proof.
  induction l as [|a l IH]; intros H; [exact I|].
  inversion H as [|x xs Ha Hl]; subst.
  change ((a :: l) ++ [r])%list with (a :: (l ++ [r]))%list.
  cbn [older_disposed]. destruct (l ++ [r])%list eqn:E.
  - destruct l; discriminate E.
  - split; [exact Ha|]. apply IH. exact Hl.
Qed.

Lemma older_disposed_nth (l : list EffectRun) :
  older_disposed l ->
  forall k, (S k < List.length l)%nat ->
            exists r, nth_error l k = Some r /\ run_disposed r = true.
Proof.
  induction l as [|a l IH]; intros H k Hk; [cbn in Hk; lia|].
  destruct l as [|b l']; [cbn in Hk; lia|].
  destruct H as [Ha Hl]. destruct k as [|k].
  - exists a. split; [reflexivity | exact Ha].
  - cbn [nth_error]. apply IH; [exact Hl | cbn in *; lia].
Qed.

Lemma LoadedModel_run_snoc (s : LoadedModelState)
  (es : list LoadedModelEvent) (e : LoadedModelEvent) :
  LoadedModel_run s (es ++ [e]) = LoadedModel_step (LoadedModel_run s es) e.
Proof. unfold LoadedModel_run. rewrite fold_left_app. reflexivity. Qed.

Lemma LoadedModel_older_disposed (es : list LoadedModelEvent) :
  older_disposed (lm_effects (LoadedModel_run initialLoadedModel es)).
Proof.
  induction es as [|e es IH] using rev_ind; [exact I|].
  rewrite LoadedModel_run_snoc.
  set (s := LoadedModel_run initialLoadedModel es) in *.
  destruct e as [name thrown | k obj | k message]; cbn.
  - apply older_disposed_snoc, dispose_last_all. exact IH.
  - destruct (nth_error (lm_effects s) k) as [[[kind|] [|]]|]; exact IH.
  - destruct (nth_error (lm_effects s) k) as [[[[|]|] [|]]|]; exact IH.
Qed.

(** X24. Only the loader of the latest upload can change what is shown.
    After any history, a success or error callback that belongs to an
    earlier effect run leaves the state exactly as it is, and choosing a
    new file removes the current object at once. *)
Theorem LoadedModel_stale_callbacks_ignored
  (es : list LoadedModelEvent) (k : nat) :
  let s := LoadedModel_run initialLoadedModel es in
  (S k < List.length (lm_effects s))%nat ->
  (forall obj, LoadedModel_step s (LmOnLoad k obj) = s) /\
  (forall message, LoadedModel_step s (LmOnError k message) = s) /\
  (forall name thrown,
      lm_object (LoadedModel_step s (LmFile name thrown)) = None).
Proof.
  cbn zeta. intros Hk.
  destruct (older_disposed_nth _ (LoadedModel_older_disposed es) k Hk)
    as (r & Hr & Hd).
  destruct r as [loader disposed]. cbn in Hd. subst disposed.
  split; [|split].
  - intros obj. cbn. rewrite Hr. destruct loader; reflexivity.
  - intros message. cbn. rewrite Hr. destruct loader as [[|]|]; reflexivity.
  - reflexivity.
Qed.

Lemma LoadedModel_stale_callbacks_ignored_witness :
  LoadedModel_step
    (LoadedModel_run initialLoadedModel
       [LmFile "chair.obj" None; LmFile "robot.fbx" None])
    (LmOnLoad 0 (mkObject3D 7))
  = LoadedModel_run initialLoadedModel
      [LmFile "chair.obj" None; LmFile "robot.fbx" None].
Proof.
  assert (Hk : (1 < List.length
                      (lm_effects
                         (LoadedModel_run initialLoadedModel
                            [LmFile "chair.obj" None;
                             LmFile "robot.fbx" None])))%nat)
    by (cbv; lia).
  destruct (LoadedModel_stale_callbacks_ignored
              [LmFile "chair.obj" None; LmFile "robot.fbx" None] 0 Hk)
    as (Hload & _).
  exact (Hload (mkObject3D 7)).
Defined.

(** The callback of the latest run, by contrast, puts the object on screen. *)
Example LoadedModel_latest_callback_shows :
  LoadedModel_render
    (LoadedModel_run initialLoadedModel
       [LmFile "chair.obj" None; LmFile "robot.fbx" None;
        LmOnLoad 1 (mkObject3D 8)])
  = Primitive (mkObject3D 8).
Proof. reflexivity. Qed.
